(** * x402 on NEAR: the facilitator's verification and settlement, and the
      seller's 402 challenge, as a shallow embedding.

    The development follows the TypeScript sources:
    - the facilitator ([verifyPayment], [settlePayment], the [/verify] and
      [/settle] handlers, the zod schemas [PaymentPayload] and
      [PaymentDetails]);
    - the seller ([buildAccepts] and the [/weather] handler).

    The facilitator is embedded from its near-kit version, which decodes
    the blob with [decodeSignedDelegateAction]; an earlier version of the
    file decodes it with [JSON.parse] and has the same [verifyPayment] from
    there on.

    JavaScript values are a small inductive type; a [throw] is the [Throw]
    constructor of [Result]; the ledger is a state threaded through the
    handlers.  What the sources take from the JavaScript runtime and from
    near-kit (JSON.parse, the borsh decoder, the constructor of [Near], the
    relayer's [send], ...) is a field of the records [Runtime] and
    [NearKit]: every theorem holds for all of them. *)

From Stdlib Require Import ZArith List String Ascii Bool Lia Floats Uint63 DecimalString.
Import ListNotations.

Set Warnings "-register-all".

Open Scope string_scope.
Open Scope Z_scope.

(* ================================================================== *)
(** * JavaScript values and exceptions *)

Module JS.

(** A JavaScript string is kept as the Rocq string of its UTF-8 bytes, so
    that [===] on strings is [String.eqb]. *)
Definition jsstring := string.

(** Values as [JSON.parse] builds them, and [undefined] for an absent
    property.  A Number is an IEEE binary64 [float]. *)
Inductive JSValue : Type :=
| JUndefined
| JNull
| JBool (b : bool)
| JNum (x : float)
| JStr (s : jsstring)
| JArr (elements : list JSValue)
| JObj (props : list (jsstring * JSValue)).

(** What can be thrown.  [Error m] is the source's [new Error(m)]; the other
    constructors are the exceptions of the runtime and of the libraries,
    named by the operation that raised them. *)
Inductive Exn : Type :=
| Error (message : jsstring)
| TypeError_property (target : JSValue) (prop : jsstring)
| TypeError_BigInt (v : JSValue)
| TypeError_primitive (v : JSValue)
| SyntaxError_BigInt (s : jsstring)
| RangeError_BigInt (x : float)
| SyntaxError_JSON (text : jsstring)
| ZodError (schema : jsstring) (input : JSValue)
| External (message : jsstring).

Inductive Result (A : Type) : Type :=
| Ok (a : A)
| Throw (e : Exn).
Arguments Ok {A} a.
Arguments Throw {A} e.

Definition bind {A B} (r : Result A) (k : A -> Result B) : Result B :=
  match r with
  | Ok a => k a
  | Throw e => Throw e
  end.

(** [try { body } catch (e) { handler }] *)
Definition try_catch {A} (body : Result A) (handler : Exn -> A) : A :=
  match body with
  | Ok a => a
  | Throw e => handler e
  end.

Definition is_ok {A} (r : Result A) : bool :=
  match r with Ok _ => true | Throw _ => false end.

(** ToBoolean: the falsy values are undefined, null, false, +0, -0, NaN and
    the empty string. *)
Definition ToBoolean (v : JSValue) : bool :=
  match v with
  | JUndefined | JNull => false
  | JBool b => b
  | JNum x => negb (PrimFloat.is_zero x || PrimFloat.is_nan x)
  | JStr s => negb (s =? "")%string
  | JArr _ | JObj _ => true
  end.

(** [a || b] *)
Definition or_else (a b : JSValue) : JSValue :=
  if ToBoolean a then a else b.

(** [v === s] for a string [s]. *)
Definition strict_eq_string (v : JSValue) (s : jsstring) : bool :=
  match v with
  | JStr t => (t =? s)%string
  | _ => false
  end.

Fixpoint assoc (k : jsstring) (props : list (jsstring * JSValue)) : JSValue :=
  match props with
  | [] => JUndefined
  | (k', v) :: rest => if (k' =? k)%string then v else assoc k rest
  end.

(** [v.k] for a property name [k] that no prototype defines (the names the
    sources read: receiver_id, receiverId, amount, valid, ok, ...): own
    property of an object, [undefined] on any other value, and a TypeError
    on null and undefined. *)
Definition get (v : JSValue) (k : jsstring) : Result JSValue :=
  match v with
  | JUndefined | JNull => Throw (TypeError_property v k)
  | JObj props => Ok (assoc k props)
  | _ => Ok JUndefined
  end.

(** [v?.k], for the same property names. *)
Definition get_optional (v : JSValue) (k : jsstring) : JSValue :=
  match v with
  | JObj props => assoc k props
  | _ => JUndefined
  end.

(** [a ?? b] *)
Definition nullish_or (a b : JSValue) : JSValue :=
  match a with
  | JUndefined | JNull => b
  | _ => a
  end.

(** ** BigInt *)

Definition digit_value (radix : Z) (c : ascii) : option Z :=
  let n := Z.of_nat (nat_of_ascii c) in
  let d :=
    if (48 <=? n) && (n <=? 57) then n - 48
    else if (97 <=? n) && (n <=? 102) then n - 87
    else if (65 <=? n) && (n <=? 70) then n - 55
    else radix in
  if d <? radix then Some d else None.

Fixpoint read_digits (radix : Z) (s : string) (acc : Z) : Z * string :=
  match s with
  | EmptyString => (acc, s)
  | String c r =>
      match digit_value radix c with
      | Some d => read_digits radix r (acc * radix + d)
      | None => (acc, s)
      end
  end.

(** One or more digits of the radix, then the rest of the string. *)
Definition digits1 (radix : Z) (s : string) : option (Z * string) :=
  match s with
  | EmptyString => None
  | String c _ =>
      match digit_value radix c with
      | Some _ => Some (read_digits radix s 0)
      | None => None
      end
  end.

(** Length in bytes of the WhiteSpace or LineTerminator code point at the
    head of [s] (0 when there is none): TAB, LF, VT, FF, CR, SP, and in
    UTF-8 U+00A0, U+1680, U+2000-200A, U+2028, U+2029, U+202F, U+205F, U+3000,
    U+FEFF. *)
Definition ws_length (s : string) : nat :=
  match s with
  | EmptyString => 0%nat
  | String a r =>
      let a := nat_of_ascii a in
      if ((9 <=? a) && (a <=? 13) || (a =? 32))%nat then 1%nat
      else
        match r with
        | EmptyString => 0%nat
        | String b r2 =>
            let b := nat_of_ascii b in
            if ((a =? 194) && (b =? 160))%nat then 2%nat
            else
              match r2 with
              | EmptyString => 0%nat
              | String c _ =>
                  let c := nat_of_ascii c in
                  if ((a =? 225) && (b =? 154) && (c =? 128)
                      || (a =? 226) && (b =? 128) && (128 <=? c) && (c <=? 138)
                      || (a =? 226) && (b =? 128)
                           && ((c =? 168) || (c =? 169) || (c =? 175))
                      || (a =? 226) && (b =? 129) && (c =? 159)
                      || (a =? 227) && (b =? 128) && (c =? 128)
                      || (a =? 239) && (b =? 187) && (c =? 191))%nat
                  then 3%nat else 0%nat
              end
        end
  end.

Fixpoint drop (n : nat) (s : string) : string :=
  match n, s with
  | S n', String _ r => drop n' r
  | _, _ => s
  end.

Fixpoint skip_ws_fuel (fuel : nat) (s : string) : string :=
  match fuel with
  | O => s
  | S fuel' =>
      match ws_length s with
      | O => s
      | n => skip_ws_fuel fuel' (drop n s)
      end
  end.

(** Every round removes a byte at least, so the length is fuel enough. *)
Definition skip_ws (s : string) : string := skip_ws_fuel (String.length s) s.

(** StrIntegerLiteral: a decimal integer with an optional sign, or an
    unsigned 0x / 0o / 0b literal. *)
Definition integer_literal (s : string) : option (Z * string) :=
  match s with
  | String "0" (String p r) =>
      if ((p =? "x") || (p =? "X"))%char then digits1 16 r
      else if ((p =? "o") || (p =? "O"))%char then digits1 8 r
      else if ((p =? "b") || (p =? "B"))%char then digits1 2 r
      else digits1 10 s
  | String "+" r => digits1 10 r
  | String "-" r =>
      match digits1 10 r with
      | Some (n, rest) => Some (- n, rest)
      | None => None
      end
  | _ => digits1 10 s
  end.

(** StringToBigInt: white space around an integer literal; the empty (or
    blank) string is 0. *)
Definition StringToBigInt (s : jsstring) : option Z :=
  match skip_ws s with
  | EmptyString => Some 0
  | t =>
      match integer_literal t with
      | Some (n, rest) =>
          match skip_ws rest with
          | EmptyString => Some n
          | _ => None
          end
      | None => None
      end
  end.

(** NumberToBigInt: the integer a Number denotes, when it denotes one. *)
Definition NumberToBigInt (x : float) : option Z :=
  match Prim2SF x with
  | S754_zero _ => Some 0
  | S754_finite s m e =>
      let v := if s then Z.neg m else Z.pos m in
      if 0 <=? e then Some (v * 2 ^ e)
      else if Z.pos m mod 2 ^ (- e) =? 0 then Some (v / 2 ^ (- e))
      else None
  | S754_infinity _ | S754_nan => None
  end.

Definition join (sep : string) (l : list string) : string :=
  match l with
  | [] => ""
  | x :: rest => fold_left (fun acc y => acc ++ sep ++ y) rest x
  end.

Section Conversions.
(** Number::toString, the shortest decimal that reads back as the Number. *)
Variable Number_toString : float -> jsstring.

(** [k] is an own property of the object. *)
Definition has_own (k : jsstring) (props : list (jsstring * JSValue)) : bool :=
  existsb (fun kv => (fst kv =? k)%string) props.

(** ToString.  An array is the join of its elements, null and undefined
    elements giving the empty string.  An object parsed from JSON has the
    [toString] of Object.prototype, unless a property of its own, which no
    JSON value makes callable, hides it: then there is no primitive value to
    convert. *)
Fixpoint ToString (v : JSValue) : Result jsstring :=
  match v with
  | JUndefined => Ok "undefined"
  | JNull => Ok "null"
  | JBool true => Ok "true"
  | JBool false => Ok "false"
  | JNum x => Ok (Number_toString x)
  | JStr s => Ok s
  | JArr l =>
      bind
        ((fix elements (l : list JSValue) : Result (list jsstring) :=
            match l with
            | [] => Ok []
            | e :: rest =>
                bind (match e with
                      | JUndefined | JNull => Ok ""
                      | _ => ToString e
                      end)
                  (fun s => bind (elements rest) (fun ss => Ok (s :: ss)))
            end) l)
        (fun ss => Ok (join "," ss))
  | JObj props =>
      if has_own "toString" props then Throw (TypeError_primitive v)
      else Ok "[object Object]"
  end.

Definition BigInt_string (s : jsstring) : Result Z :=
  match StringToBigInt s with
  | Some n => Ok n
  | None => Throw (SyntaxError_BigInt s)
  end.

(** [BigInt(v)]: a Number by its value, any other value through its
    primitive. *)
Definition BigInt (v : JSValue) : Result Z :=
  match v with
  | JNum x =>
      match NumberToBigInt x with
      | Some n => Ok n
      | None => Throw (RangeError_BigInt x)
      end
  | JUndefined | JNull => Throw (TypeError_BigInt v)
  | JBool b => Ok (if b then 1 else 0)
  | JStr s => BigInt_string s
  | JArr _ | JObj _ => bind (ToString v) BigInt_string
  end.
End Conversions.

End JS.
Import JS.

Declare Scope result_scope.
Delimit Scope result_scope with result.
Notation "x <- r ;; k" := (bind r (fun x => k))
  (at level 61, r at next level, right associativity) : result_scope.
Open Scope result_scope.


(** Computations that read and write a state [St] and may throw: the
    handlers of the two services. *)
Definition Eff (St A : Type) : Type := St -> Result A * St.

Definition eret {St A} (a : A) : Eff St A := fun st => (Ok a, st).

Definition ebind {St A B} (m : Eff St A) (k : A -> Eff St B) : Eff St B :=
  fun st =>
    match m st with
    | (Ok a, st') => k a st'
    | (Throw e, st') => (Throw e, st')
    end.

(** A computation without effect on the state. *)
Definition lift {St A} (r : Result A) : Eff St A := fun st => (r, st).

(** [try { body } catch (e) { handler }]: what the body did to the state
    before it threw stays done. *)
Definition ecatch {St A} (body : Eff St A) (handler : Exn -> Eff St A)
  : Eff St A :=
  fun st =>
    match body st with
    | (Ok a, st') => (Ok a, st')
    | (Throw e, st') => handler e st'
    end.

Declare Scope eff_scope.
Delimit Scope eff_scope with eff.
Notation "x <- m ;; k" := (ebind m (fun x => k))
  (at level 61, m at next level, right associativity) : eff_scope.

(** The JavaScript runtime, as far as the sources use it. *)
Record Runtime : Type := {
  (** [JSON.parse(text)] *)
  JSON_parse : jsstring -> Result JSValue;
  (** [JSON.stringify(value)] *)
  JSON_stringify : JSValue -> jsstring;
  (** [Buffer.from(bytes).toString("utf8")] *)
  Buffer_toString_utf8 : string -> jsstring;
  (** [Buffer.from(text, "base64").toString("utf8")] *)
  Buffer_from_base64_toString_utf8 : jsstring -> jsstring;
  (** [Buffer.from(text).toString("base64")] *)
  Buffer_toString_base64 : jsstring -> jsstring;
  (** Number::toString *)
  Number_toString : float -> jsstring;
  (** [Number(text)] *)
  Number_of_string : jsstring -> float;
  (** [x.toFixed(digits)] *)
  Number_toFixed : float -> Z -> jsstring;
  (** the [message] of an exception that the runtime or a library built *)
  builtin_message : Exn -> jsstring
}.

(** [e instanceof Error ? e.message : String(e)] *)
Definition error_string (rt : Runtime) (e : Exn) : jsstring :=
  match e with
  | Error m => m
  | External m => m
  | _ => builtin_message rt e
  end.

(** An HTTP response of a Hono handler: [c.json(body, status)] after the
    [c.header] calls. *)
Record Response : Type := {
  status : Z;
  headers : list (jsstring * jsstring);
  body : JSValue
}.

Definition c_json (headers : list (jsstring * jsstring)) (body : JSValue)
  (status : Z) : Response :=
  {| status := status; headers := headers; body := body |}.

(* ================================================================== *)
(** * near-kit: signed delegate actions and the relayer *)

Module Near.

Record FunctionCall : Type := {
  methodName : jsstring;
  args : string;              (* Uint8Array *)
  gas : Z;
  deposit : Z
}.

(** An action is an object with one key; only [functionCall] is read. *)
Inductive Action : Type :=
| FunctionCallAction (functionCall : FunctionCall)
| OtherAction (key : jsstring) (content : JSValue).

Record DelegateAction : Type := {
  senderId : jsstring;
  receiverId : jsstring;
  actions : list Action;
  nonce : Z;
  maxBlockHeight : Z;
  publicKey : string
}.

Record SignedDelegate : Type := {
  delegateAction : DelegateAction;
  signature : string
}.

Record SignedDelegateAction : Type := {
  signedDelegate : SignedDelegate
}.

(** The configuration given to [new Near({...})]; a client is known by
    the configuration it was constructed from. *)
Record Near : Type := {
  rpcUrl : jsstring;
  networkId : jsstring;
  privateKey : jsstring;
  defaultSignerId : jsstring
}.

(** What [send()] resolves to, as far as it is read. *)
Record FinalExecutionOutcome : Type := {
  transaction_hash : jsstring;        (* result.transaction.hash *)
  transaction_outcome_id : jsstring;  (* result.transaction_outcome.id *)
  outcome_status : JSValue            (* result.status *)
}.

(** The library over a ledger of type [Ledger]. *)
Record NearKit (Ledger : Type) : Type := {
  (** [decodeSignedDelegateAction(b64)]: base64, then borsh *)
  decodeSignedDelegateAction : JSValue -> Result SignedDelegateAction;
  (** [new Near({...})]: the constructor reads the private key, and throws
      on a key it cannot parse *)
  new_Near : Near -> Result Near;
  (** [near.transaction(signerId).signedDelegateAction(delegate).send()] *)
  send : Near -> jsstring -> SignedDelegateAction
         -> Eff Ledger FinalExecutionOutcome
}.
Arguments decodeSignedDelegateAction {Ledger} _ _.
Arguments new_Near {Ledger} _ _.
Arguments send {Ledger} _ _ _ _ _.

End Near.
Import Near.

(** [process.env]: a variable is a string or undefined. *)
Definition envvar := option jsstring.

(** [!X] for an environment variable [X]. *)
Definition unset (x : envvar) : bool :=
  match x with
  | None => true
  | Some s => (s =? "")%string
  end.

(** [const { X = d } = process.env]: the default replaces undefined only. *)
Definition default (d : jsstring) (x : envvar) : jsstring :=
  match x with
  | None => d
  | Some s => s
  end.

(* ================================================================== *)
(** * The facilitator *)

Module Facilitator.

Record Env : Type := {
  NEAR_RPC_var : envvar;
  TOKEN_ACCOUNT_ID : envvar;
  SELLER_ACCOUNT_ID : envvar;
  RELAYER_ACCOUNT_ID : envvar;
  RELAYER_PRIVATE_KEY : envvar;
  FACILITATOR_PORT_var : envvar
}.

Definition NEAR_RPC (env : Env) : jsstring :=
  default "https://rpc.testnet.near.org" (NEAR_RPC_var env).

(** The check at module level: the service starts only when it passes. *)
Definition startup (env : Env) : Result unit :=
  if unset (TOKEN_ACCOUNT_ID env) || unset (SELLER_ACCOUNT_ID env)
     || unset (RELAYER_ACCOUNT_ID env) || unset (RELAYER_PRIVATE_KEY env)
  then Throw (Error
    "Missing required env vars in facilitator (TOKEN_ACCOUNT_ID, SELLER_*, RELAYER_*)")
  else Ok tt.

Definition getRelayer {Ledger : Type} (nk : NearKit Ledger) (env : Env)
  : Result Near :=
  match RELAYER_ACCOUNT_ID env, RELAYER_PRIVATE_KEY env with
  | Some id, Some key =>
      if ((id =? "") || (key =? ""))%string
      then Throw (Error "RELAYER credentials not configured")
      else new_Near nk {| rpcUrl := NEAR_RPC env; networkId := "testnet";
                          privateKey := key; defaultSignerId := id |}
  | _, _ => Throw (Error "RELAYER credentials not configured")
  end.

Definition scheme_literal : jsstring := "near-delegate-exact".

(** A property that [z.string()] accepts. *)
Definition z_string (props : list (jsstring * JSValue)) (k : jsstring)
  : option jsstring :=
  match assoc k props with
  | JStr s => Some s
  | _ => None
  end.

(** A property that [z.string().optional()] accepts. *)
Definition z_string_optional (props : list (jsstring * JSValue))
  (k : jsstring) : option (option jsstring) :=
  match assoc k props with
  | JUndefined => Some None
  | JStr s => Some (Some s)
  | _ => None
  end.

(** A property that [z.literal(l)] accepts. *)
Definition z_literal (l : jsstring) (props : list (jsstring * JSValue))
  (k : jsstring) : option jsstring :=
  match assoc k props with
  | JStr s => if (s =? l)%string then Some s else None
  | _ => None
  end.

Module PaymentPayload.
Record t : Type := {
  scheme : jsstring;
  network : jsstring;
  asset : jsstring;
  payTo : jsstring;
  delegateB64 : jsstring;
  invoiceId : option jsstring;
  maxAmountRequired : option jsstring
}.

(** [PaymentPayload.parse(input)] *)
Definition parse (input : JSValue) : Result t :=
  match input with
  | JObj props =>
      match z_literal scheme_literal props "scheme",
            z_string props "network", z_string props "asset",
            z_string props "payTo", z_string props "delegateB64",
            z_string_optional props "invoiceId",
            z_string_optional props "maxAmountRequired" with
      | Some s, Some n, Some a, Some p, Some d, Some i, Some m =>
          Ok {| scheme := s; network := n; asset := a; payTo := p;
                delegateB64 := d; invoiceId := i; maxAmountRequired := m |}
      | _, _, _, _, _, _, _ => Throw (ZodError "PaymentPayload" input)
      end
  | _ => Throw (ZodError "PaymentPayload" input)
  end.
End PaymentPayload.

Module PaymentDetails.
Record t : Type := {
  scheme : jsstring;
  network : jsstring;
  asset : jsstring;
  payTo : jsstring;
  amountExactAtomic : jsstring
}.

(** [PaymentDetails.parse(input)] *)
Definition parse (input : JSValue) : Result t :=
  match input with
  | JObj props =>
      match z_literal scheme_literal props "scheme",
            z_string props "network", z_string props "asset",
            z_string props "payTo", z_string props "amountExactAtomic" with
      | Some s, Some n, Some a, Some p, Some x =>
          Ok {| scheme := s; network := n; asset := a; payTo := p;
                amountExactAtomic := x |}
      | _, _, _, _, _ => Throw (ZodError "PaymentDetails" input)
      end
  | _ => Throw (ZodError "PaymentDetails" input)
  end.
End PaymentDetails.

(** The properties each schema requires. *)
Definition payload_fields : list jsstring :=
  ["scheme"; "network"; "asset"; "payTo"; "delegateB64"].
Definition details_fields : list jsstring :=
  ["scheme"; "network"; "asset"; "payTo"; "amountExactAtomic"].

(** [v] has a scheme that is a string other than the literal, or lacks one
    of the required properties. *)
Definition violates_schema (fields : list jsstring) (v : JSValue) : Prop :=
  (exists s, get_optional v "scheme" = JStr s /\ s <> scheme_literal)
  \/ (exists k, In k fields /\ get_optional v k = JUndefined).

(** What [settlePayment] returns. *)
Record Settlement : Type := {
  ok : bool;
  txHash : jsstring;
  blockHash : jsstring;
  settlement_status : JSValue
}.

Section Service.
Context {Ledger : Type}.
Variable rt : Runtime.
Variable nk : NearKit Ledger.
Variable env : Env.

(** The body of the loop of [verifyPayment], for one action: the value of
    [foundAmount] after it. *)
Definition scan_action (payTo : jsstring) (foundAmount : option Z)
  (action : Action) : Result (option Z) :=
  match action with
  | FunctionCallAction fc =>
      if ((methodName fc =? "ft_transfer")
          || (methodName fc =? "ft_transfer_call"))%string
      then
        let argsStr := Buffer_toString_utf8 rt (args fc) in
        parsed <- JSON_parse rt argsStr ;;
        receiver_id <- get parsed "receiver_id" ;;
        recipient <- (if ToBoolean receiver_id then Ok receiver_id
                      else get parsed "receiverId") ;;
        if strict_eq_string recipient payTo
        then
          amount <- get parsed "amount" ;;
          found <- BigInt (Number_toString rt) (or_else amount (JStr "0")) ;;
          Ok (Some found)
        else Ok foundAmount
      else Ok foundAmount
  | OtherAction _ _ => Ok foundAmount
  end.

(** [for (const action of actions) { ... }] *)
Fixpoint scan_actions (payTo : jsstring) (foundAmount : option Z)
  (actions : list Action) : Result (option Z) :=
  match actions with
  | [] => Ok foundAmount
  | action :: rest =>
      found <- scan_action payTo foundAmount action ;;
      scan_actions payTo found rest
  end.

(** Verify payment matches seller's requirements *)
Definition verifyPayment (payload : PaymentPayload.t)
  (required : PaymentDetails.t) : Result SignedDelegateAction :=
  if negb (PaymentPayload.asset payload =? PaymentDetails.asset required)%string
  then Throw (Error "Asset mismatch")
  else if negb (PaymentPayload.payTo payload
                =? PaymentDetails.payTo required)%string
  then Throw (Error "Recipient mismatch")
  else if negb (PaymentPayload.network payload
                =? PaymentDetails.network required)%string
  then Throw (Error "Network mismatch")
  else
    delegate <- decodeSignedDelegateAction nk
                  (JStr (PaymentPayload.delegateB64 payload)) ;;
    let da := delegateAction (signedDelegate delegate) in
    if negb (receiverId da =? PaymentDetails.asset required)%string
    then Throw (Error "Delegate must target token contract")
    else
      requiredAmount <- BigInt (Number_toString rt)
                          (JStr (PaymentDetails.amountExactAtomic required)) ;;
      foundAmount <- scan_actions (PaymentDetails.payTo required) None
                       (actions da) ;;
      match foundAmount with
      | None => Throw (Error "No transfer to seller found")
      | Some found =>
          if negb (found =? requiredAmount)
          then Throw (Error "Amount mismatch")
          else Ok delegate
      end.

(** ** The vocabulary of the claims, read off the loop body *)

(** A transfer-type sub-action: a function call whose method name is
    ft_transfer or ft_transfer_call. *)
Definition transfer_call (action : Action) : option FunctionCall :=
  match action with
  | FunctionCallAction fc =>
      if ((methodName fc =? "ft_transfer")
          || (methodName fc =? "ft_transfer_call"))%string
      then Some fc else None
  | OtherAction _ _ => None
  end.

(** Its recipient field: [parsed.receiver_id || parsed.receiverId]. *)
Definition recipient_of (fc : FunctionCall) : Result JSValue :=
  parsed <- JSON_parse rt (Buffer_toString_utf8 rt (args fc)) ;;
  receiver_id <- get parsed "receiver_id" ;;
  if ToBoolean receiver_id then Ok receiver_id else get parsed "receiverId".

(** Its amount: [BigInt(parsed.amount || "0")]. *)
Definition amount_of (fc : FunctionCall) : Result Z :=
  parsed <- JSON_parse rt (Buffer_toString_utf8 rt (args fc)) ;;
  amount <- get parsed "amount" ;;
  BigInt (Number_toString rt) (or_else amount (JStr "0")).

(** [action] is a transfer-type sub-action to [payTo], of amount [v]. *)
Definition matching_transfer (payTo : jsstring) (action : Action) (v : Z)
  : Prop :=
  exists fc, transfer_call action = Some fc
             /\ recipient_of fc = Ok (JStr payTo)
             /\ amount_of fc = Ok v.

(** [action] is read by the loop and is no transfer to [payTo]. *)
Definition not_matching (payTo : jsstring) (action : Action) : Prop :=
  transfer_call action = None
  \/ exists fc r, transfer_call action = Some fc
                  /\ recipient_of fc = Ok r
                  /\ r <> JStr payTo.

(** Rules 1 to 5 pass with the delegate [d], and the required amount is the
    integer [A]: [verifyPayment] gets to the loop. *)
Definition reaches_scan (payload : PaymentPayload.t)
  (required : PaymentDetails.t) (d : SignedDelegateAction) (A : Z) : Prop :=
  PaymentPayload.asset payload = PaymentDetails.asset required
  /\ PaymentPayload.payTo payload = PaymentDetails.payTo required
  /\ PaymentPayload.network payload = PaymentDetails.network required
  /\ decodeSignedDelegateAction nk (JStr (PaymentPayload.delegateB64 payload))
     = Ok d
  /\ receiverId (delegateAction (signedDelegate d))
     = PaymentDetails.asset required
  /\ BigInt (Number_toString rt)
       (JStr (PaymentDetails.amountExactAtomic required)) = Ok A.

(** The value of [foundAmount] after the loop over the actions of [d]. *)
Definition observed_amount (required : PaymentDetails.t)
  (d : SignedDelegateAction) : Result (option Z) :=
  scan_actions (PaymentDetails.payTo required) None
    (actions (delegateAction (signedDelegate d))).

Definition settlePayment (delegate : SignedDelegateAction)
  : Eff Ledger Settlement :=
  (relayer <- lift (getRelayer nk env) ;;
   match RELAYER_ACCOUNT_ID env with
   | Some id =>
       if (id =? "")%string
       then lift (Throw (Error "RELAYER_ACCOUNT_ID not set"))
       else
         result <- send nk relayer id delegate ;;
         eret {| ok := true;
                 txHash := transaction_hash result;
                 blockHash := transaction_outcome_id result;
                 settlement_status := outcome_status result |}
   | None => lift (Throw (Error "RELAYER_ACCOUNT_ID not set"))
   end)%eff.

(** A request, as the handlers read it: [await c.req.json()]. *)
Record Request : Type := {
  json : Result JSValue
}.

Definition json_of_settlement (s : Settlement) : JSValue :=
  JObj [("ok", JBool (ok s)); ("txHash", JStr (txHash s));
        ("blockHash", JStr (blockHash s));
        ("status", settlement_status s)].

(** [app.post("/verify", ...)] *)
Definition post_verify (c : Request) : Eff Ledger Response :=
  ecatch
    (lift
       (req <- json c ;;
        paymentPayload <- get req "paymentPayload" ;;
        paymentDetails <- get req "paymentDetails" ;;
        payment <- PaymentPayload.parse paymentPayload ;;
        required <- PaymentDetails.parse paymentDetails ;;
        delegate <- verifyPayment payment required ;;
        Ok (c_json []
              (JObj [("valid", JBool true);
                     ("sender",
                      JStr (senderId
                              (delegateAction (signedDelegate delegate))))])
              200)))
    (fun e =>
       let error := error_string rt e in
       eret (c_json [] (JObj [("valid", JBool false); ("error", JStr error)])
               400)).

(** [app.post("/settle", ...)] *)
Definition post_settle (c : Request) : Eff Ledger Response :=
  ecatch
    (req <- lift (json c) ;;
     delegateB64 <- lift (get req "delegateB64") ;;
     delegate <- lift (decodeSignedDelegateAction nk delegateB64) ;;
     settlement <- settlePayment delegate ;;
     eret (c_json [] (json_of_settlement settlement) 200))%eff
    (fun e =>
       let error := error_string rt e in
       eret (c_json [] (JObj [("ok", JBool false); ("error", JStr error)])
               400)).
End Service.

End Facilitator.

(* ================================================================== *)
(** * The seller *)

Module Seller.

Record Env : Type := {
  NEAR_NETWORK_var : envvar;
  TOKEN_ACCOUNT_ID : envvar;
  SELLER_ACCOUNT_ID : envvar;
  PRICE_ATOMIC_var : envvar;
  SELLER_PORT_var : envvar;
  FACILITATOR_PORT_var : envvar
}.

Definition NEAR_NETWORK (env : Env) : jsstring :=
  default "testnet" (NEAR_NETWORK_var env).
Definition PRICE_ATOMIC (env : Env) : jsstring :=
  default "1000" (PRICE_ATOMIC_var env).
Definition FACILITATOR_PORT (env : Env) : jsstring :=
  default "4022" (FACILITATOR_PORT_var env).

(** The check at module level: the service starts only when it passes. *)
Definition startup (env : Env) : Result unit :=
  if unset (TOKEN_ACCOUNT_ID env) || unset (SELLER_ACCOUNT_ID env)
  then Throw (Error "Missing TOKEN_ACCOUNT_ID or SELLER_ACCOUNT_ID in seller env")
  else Ok tt.

(** An entry of [accepts]. *)
Module AcceptsEntry.
Record t : Type := {
  scheme : jsstring;
  network : jsstring;
  asset : envvar;
  payTo : envvar;
  amountExactAtomic : jsstring;
  maxTimeoutSeconds : float;
  mimeType : jsstring;
  resource : jsstring;
  description : jsstring
}.

Definition json_of_envvar (x : envvar) : JSValue :=
  match x with
  | None => JUndefined
  | Some s => JStr s
  end.

(** The entry as the object literal of the source. *)
Definition to_json (a : t) : JSValue :=
  JObj [("scheme", JStr (scheme a));
        ("network", JStr (network a));
        ("asset", json_of_envvar (asset a));
        ("payTo", json_of_envvar (payTo a));
        ("amountExactAtomic", JStr (amountExactAtomic a));
        ("maxTimeoutSeconds", JNum (maxTimeoutSeconds a));
        ("mimeType", JStr (mimeType a));
        ("resource", JStr (resource a));
        ("description", JStr (description a))].
End AcceptsEntry.

(** What a handler takes from outside the process: fresh identifiers, the
    clock, and the facilitator behind [fetch].  [World] is all of it. *)
Record Platform (World : Type) : Type := {
  (** [crypto.randomUUID()] *)
  randomUUID : World -> jsstring * World;
  (** [Date.now()] *)
  Date_now : World -> float * World;
  (** [await (await fetch(url, { method: "POST", headers, body:
      JSON.stringify(payload) })).json()] *)
  fetch_json : jsstring -> JSValue -> Eff World JSValue
}.
Arguments randomUUID {World} _ _.
Arguments Date_now {World} _ _.
Arguments fetch_json {World} _ _ _ _.

(** A request, as the handler reads it. *)
Record Request : Type := {
  url : jsstring;                     (* c.req.url *)
  x_payment : option jsstring         (* c.req.header("x-payment") *)
}.

Section Service.
Context {World : Type}.
Variable rt : Runtime.
Variable pf : Platform World.
Variable env : Env.

(** Build the x402-style NEAR "accepts" entry with exact amount *)
Definition buildAccepts (resource : jsstring) : list AcceptsEntry.t :=
  [ {| AcceptsEntry.scheme := "near-delegate-exact";
       AcceptsEntry.network := NEAR_NETWORK env;
       AcceptsEntry.asset := TOKEN_ACCOUNT_ID env;
       AcceptsEntry.payTo := SELLER_ACCOUNT_ID env;
       AcceptsEntry.amountExactAtomic := PRICE_ATOMIC env;
       AcceptsEntry.maxTimeoutSeconds := 60%float;
       AcceptsEntry.mimeType := "application/json";
       AcceptsEntry.resource := resource;
       AcceptsEntry.description :=
         "Weather for "
         ++ Number_toFixed rt
              (PrimFloat.div (Number_of_string rt (PRICE_ATOMIC env))
                 1e6%float) 6
         ++ " (assuming 6 decimals)" |} ].

(** [buildAccepts(resource)[0]] *)
Definition first_accepts (resource : jsstring) : JSValue :=
  match buildAccepts resource with
  | a :: _ => AcceptsEntry.to_json a
  | [] => JUndefined
  end.

Definition facilitator_url (path : jsstring) : jsstring :=
  "http://localhost:" ++ FACILITATOR_PORT env ++ path.

(** The body of the 200 response. *)
Definition weather_report (required settlement_txHash : JSValue) : JSValue :=
  JObj [("report",
         JObj [("weather", JStr "sunny"); ("temperatureF", JNum 70%float)]);
        ("paid",
         JObj [("asset", AcceptsEntry.json_of_envvar (TOKEN_ACCOUNT_ID env));
               ("amount",
                nullish_or (get_optional required "amountExactAtomic")
                  (JStr "0"));
               ("tx", settlement_txHash)])].

(** No payment? Return 402 with payment instructions *)
Definition challenge (c : Request) : Eff World Response :=
  fun w =>
    let accepts := JArr (map AcceptsEntry.to_json (buildAccepts (url c))) in
    let (id, w1) := randomUUID pf w in
    let (createdAt, w2) := Date_now pf w1 in
    (Ok (c_json []
           (JObj [("message", JStr "Payment Required");
                  ("accepts", accepts);
                  ("invoice",
                   JObj [("id", JStr id); ("createdAt", JNum createdAt)])])
           402),
     w2).

(** The [try] block of the handler: verify, settle, deliver. *)
Definition paid_request (c : Request) (paymentHeader : jsstring)
  : Eff World Response :=
  (payment <- lift (JSON_parse rt
                      (Buffer_from_base64_toString_utf8 rt paymentHeader)) ;;
   let required := first_accepts (url c) in
   (* Verify payment structure *)
   verification <- fetch_json pf (facilitator_url "/verify")
                     (JObj [("paymentPayload", payment);
                            ("paymentDetails", required)]) ;;
   valid <- lift (get verification "valid") ;;
   if negb (ToBoolean valid)
   then
     details <- lift (get verification "error") ;;
     eret (c_json []
             (JObj [("error", JStr "PAYMENT_INVALID"); ("details", details)])
             402)
   else
     (* Settle on-chain *)
     delegateB64 <- lift (get payment "delegateB64") ;;
     settlement <- fetch_json pf (facilitator_url "/settle")
                     (JObj [("delegateB64", delegateB64)]) ;;
     settled <- lift (get settlement "ok") ;;
     if negb (ToBoolean settled)
     then
       details <- lift (get settlement "error") ;;
       eret (c_json []
               (JObj [("error", JStr "PAYMENT_NOT_SETTLED");
                      ("details", details)])
               402)
     else
       (* Success! Return data + receipt *)
       let receipt :=
         Buffer_toString_base64 rt (JSON_stringify rt settlement) in
       txHash <- lift (get settlement "txHash") ;;
       eret (c_json [("x-payment-response", receipt)]
               (weather_report required txHash) 200))%eff.

(** [app.get("/weather", ...)] *)
Definition get_weather (c : Request) : Eff World Response :=
  match x_payment c with
  | None => challenge c
  | Some paymentHeader =>
      if (paymentHeader =? "")%string then challenge c
      else
        ecatch (paid_request c paymentHeader)
          (fun e =>
             let error := error_string rt e in
             eret (c_json []
                     (JObj [("error", JStr "PAYMENT_ERROR");
                            ("details", JStr error)])
                     402))
  end.
End Service.

End Seller.

(* ================================================================== *)
(** * A concrete runtime, for the examples

    The theorems below hold for every [Runtime], [NearKit] and [Platform].
    To evaluate the services on concrete requests, this module gives one of
    each: a parser and a printer for the fragment of JSON the examples use
    (objects, arrays, strings without escapes, literals, integers below
    2^63), base64, a decoder that knows a table of blobs, and a ledger that
    records what is sent to it. *)

Module Examples.

Definition dquote : ascii := ascii_of_nat 34.
Definition backslash : ascii := ascii_of_nat 92.

(** The text of [s] between double quotes. *)
Definition quoted (s : string) : string :=
  String dquote (s ++ String dquote "").

Definition json_space (c : ascii) : bool :=
  let n := nat_of_ascii c in
  ((n =? 32) || (n =? 9) || (n =? 10) || (n =? 13))%nat.

Fixpoint json_ws (s : string) : string :=
  match s with
  | String c r => if json_space c then json_ws r else s
  | EmptyString => s
  end.

(** The characters of a string literal after its opening quote. *)
Fixpoint string_body (s : string) : option (string * string) :=
  match s with
  | EmptyString => None
  | String c r =>
      if (c =? dquote)%char then Some ("", r)
      else if ((c =? backslash)%char || (nat_of_ascii c <? 32)%nat) then None
      else
        match string_body r with
        | Some (t, rest) => Some (String c t, rest)
        | None => None
        end
  end.

Fixpoint strip_prefix (p s : string) : option string :=
  match p, s with
  | EmptyString, _ => Some s
  | String a p', String b s' => if (a =? b)%char then strip_prefix p' s' else None
  | _, EmptyString => None
  end.

Definition float_of_Z (n : Z) : float :=
  if n <? 0 then PrimFloat.opp (PrimFloat.of_uint63 (Uint63.of_Z (- n)))
  else PrimFloat.of_uint63 (Uint63.of_Z n).

(** An integer without fraction or exponent, below 2^63 in magnitude: the
    Number nearest to it. *)
Definition json_number (s : string) : option (JSValue * string) :=
  let (neg, t) := match s with
                  | String "-" r => (true, r)
                  | _ => (false, s)
                  end in
  match digits1 10 t with
  | Some (n, rest) =>
      let leading_zero := match t with
                          | String "0" (String d _) =>
                              match digit_value 10 d with
                              | Some _ => true
                              | None => false
                              end
                          | _ => false
                          end in
      let more := match rest with
                  | String c _ => ((c =? ".") || (c =? "e") || (c =? "E"))%char
                  | EmptyString => false
                  end in
      if leading_zero || more || (2 ^ 63 <=? n) then None
      else
        let x := float_of_Z n in
        Some (JNum (if neg then PrimFloat.opp x else x), rest)
  | None => None
  end.

(** [obj[k] = v]: a later duplicate of a key replaces the earlier value. *)
Fixpoint set_prop (k : jsstring) (v : JSValue)
  (props : list (jsstring * JSValue)) : list (jsstring * JSValue) :=
  match props with
  | [] => [(k, v)]
  | (k', v') :: rest =>
      if (k' =? k)%string then (k, v) :: rest
      else (k', v') :: set_prop k v rest
  end.

Fixpoint json_value (fuel : nat) (s : string) : option (JSValue * string) :=
  match fuel with
  | O => None
  | S fuel' =>
      match json_ws s with
      | EmptyString => None
      | String c r as t =>
          if (c =? "{")%char then
            match json_ws r with
            | String "}" rest => Some (JObj [], rest)
            | r' => json_members fuel' r' []
            end
          else if (c =? "[")%char then
            match json_ws r with
            | String "]" rest => Some (JArr [], rest)
            | r' => json_elements fuel' r' []
            end
          else if (c =? dquote)%char then
            match string_body r with
            | Some (str, rest) => Some (JStr str, rest)
            | None => None
            end
          else
            match strip_prefix "true" t, strip_prefix "false" t,
                  strip_prefix "null" t with
            | Some rest, _, _ => Some (JBool true, rest)
            | _, Some rest, _ => Some (JBool false, rest)
            | _, _, Some rest => Some (JNull, rest)
            | _, _, _ => json_number t
            end
      end
  end
with json_members (fuel : nat) (s : string) (acc : list (jsstring * JSValue))
  : option (JSValue * string) :=
  match fuel with
  | O => None
  | S fuel' =>
      match json_ws s with
      | String c r =>
          if (c =? dquote)%char then
            match string_body r with
            | Some (k, rest) =>
                match json_ws rest with
                | String ":" rest' =>
                    match json_value fuel' rest' with
                    | Some (v, rest'') =>
                        let acc' := set_prop k v acc in
                        match json_ws rest'' with
                        | String "," more => json_members fuel' more acc'
                        | String "}" after => Some (JObj acc', after)
                        | _ => None
                        end
                    | None => None
                    end
                | _ => None
                end
            | None => None
            end
          else None
      | EmptyString => None
      end
  end
with json_elements (fuel : nat) (s : string) (acc : list JSValue)
  : option (JSValue * string) :=
  match fuel with
  | O => None
  | S fuel' =>
      match json_value fuel' s with
      | Some (v, rest) =>
          match json_ws rest with
          | String "," more => json_elements fuel' more (acc ++ [v])
          | String "]" after => Some (JArr (acc ++ [v]), after)
          | _ => None
          end
      | None => None
      end
  end.

(** [JSON.parse] on the fragment; a text outside it is a syntax error. *)
Definition json_parse (text : jsstring) : Result JSValue :=
  match json_value (S (String.length text)) text with
  | Some (v, rest) =>
      match json_ws rest with
      | EmptyString => Ok v
      | _ => Throw (SyntaxError_JSON text)
      end
  | None => Throw (SyntaxError_JSON text)
  end.

Definition decimal (n : Z) : string := NilZero.string_of_int (Z.to_int n).

Fixpoint escape (s : string) : string :=
  match s with
  | EmptyString => ""
  | String c r =>
      if ((c =? dquote) || (c =? backslash))%char
      then String backslash (String c (escape r))
      else String c (escape r)
  end.

(** Number::toString on the integers (other Numbers are not in the
    fragment). *)
Definition number_toString (x : float) : jsstring :=
  match NumberToBigInt x with
  | Some n => decimal n
  | None => "NaN"
  end.

(** [JSON.stringify] on the fragment: a property whose value is undefined
    is left out, an undefined element of an array is null. *)
Fixpoint json_stringify (v : JSValue) : jsstring :=
  match v with
  | JUndefined => "undefined"
  | JNull => "null"
  | JBool true => "true"
  | JBool false => "false"
  | JNum x => number_toString x
  | JStr s => quoted (escape s)
  | JArr l =>
      "[" ++ join ","
               (map (fun e => match e with
                              | JUndefined => "null"
                              | _ => json_stringify e
                              end) l) ++ "]"
  | JObj props =>
      "{" ++ join ","
               (flat_map (fun kv => match kv with
                                    | (k, w) =>
                                        match w with
                                        | JUndefined => []
                                        | _ => [quoted (escape k) ++ ":"
                                                ++ json_stringify w]
                                        end
                                    end) props) ++ "}"
  end.

(** ** base64 *)

Definition b64_char (n : nat) : ascii :=
  ascii_of_nat
    (if n <? 26 then 65 + n
     else if n <? 52 then 97 + (n - 26)
     else if n <? 62 then 48 + (n - 52)
     else if n =? 62 then 43 else 47)%nat.

Definition b64_index (c : ascii) : option nat :=
  let n := nat_of_ascii c in
  (if (65 <=? n) && (n <=? 90) then Some (n - 65)
   else if (97 <=? n) && (n <=? 122) then Some (n - 97 + 26)
   else if (48 <=? n) && (n <=? 57) then Some (n - 48 + 52)
   else if n =? 43 then Some 62
   else if n =? 47 then Some 63
   else None)%nat.

Fixpoint b64_encode (bytes : list nat) : string :=
  (match bytes with
   | a :: b :: c :: rest =>
       String (b64_char (a / 4))
         (String (b64_char (a mod 4 * 16 + b / 16))
            (String (b64_char (b mod 16 * 4 + c / 64))
               (String (b64_char (c mod 64)) (b64_encode rest))))
   | [a; b] =>
       String (b64_char (a / 4))
         (String (b64_char (a mod 4 * 16 + b / 16))
            (String (b64_char (b mod 16 * 4)) "="))
   | [a] =>
       String (b64_char (a / 4)) (String (b64_char (a mod 4 * 16)) "==")
   | [] => ""
   end)%nat.

(** The sextets of the leading base64 characters. *)
Fixpoint b64_sextets (s : string) : list nat :=
  match s with
  | EmptyString => []
  | String c r =>
      match b64_index c with
      | Some n => n :: b64_sextets r
      | None => []
      end
  end.

Fixpoint b64_bytes (sextets : list nat) : list nat :=
  (match sextets with
   | a :: b :: c :: d :: rest =>
       (a * 4 + b / 16) :: (b mod 16 * 16 + c / 4) :: (c mod 4 * 64 + d)
       :: b64_bytes rest
   | [a; b; c] => [a * 4 + b / 16; b mod 16 * 16 + c / 4]
   | [a; b] => [a * 4 + b / 16]
   | _ => []
   end)%nat.

Definition bytes_of_string (s : string) : list nat :=
  map nat_of_ascii (list_ascii_of_string s).
Definition string_of_bytes (l : list nat) : string :=
  string_of_list_ascii (map ascii_of_nat l).

Definition to_base64 (s : string) : string := b64_encode (bytes_of_string s).
Definition from_base64 (s : string) : string :=
  string_of_bytes (b64_bytes (b64_sextets s)).

(** [Number(text)] on the integer literals up to 2^53. *)
Definition number_of_string (s : jsstring) : float :=
  match StringToBigInt s with
  | Some n => if Z.abs n <=? 2 ^ 53 then float_of_Z n else nan
  | None => nan
  end.

Fixpoint zeros (n : nat) : string :=
  match n with
  | O => ""
  | S n' => String "0" (zeros n')
  end.

(** [x.toFixed(digits)] for a finite [x] below 10^21: the integer nearest
    to [x * 10^digits] (the larger of two), with the point put back. *)
Definition number_toFixed (x : float) (digits : Z) : jsstring :=
  match Prim2SF x with
  | S754_zero _ => if digits =? 0 then "0" else "0." ++ zeros (Z.to_nat digits)
  | S754_finite s m e =>
      let scaled := Z.pos m * 10 ^ digits in
      let n := if 0 <=? e then scaled * 2 ^ e
               else (2 * scaled + 2 ^ (- e)) / 2 ^ (- e + 1) in
      let int_part := decimal (n / 10 ^ digits) in
      let frac := decimal (n mod 10 ^ digits) in
      let frac := zeros (Z.to_nat digits - String.length frac) ++ frac in
      (if s && negb (n =? 0) then "-" else "") ++ int_part
      ++ (if digits =? 0 then "" else "." ++ frac)
  | S754_infinity _ | S754_nan => "NaN"
  end.

(** Messages in the style of V8. *)
Definition message (e : Exn) : jsstring :=
  match e with
  | Error m | External m => m
  | TypeError_property _ prop =>
      "Cannot read properties of null (reading '" ++ prop ++ "')"
  | TypeError_BigInt _ => "Cannot convert value to a BigInt"
  | TypeError_primitive _ => "Cannot convert object to primitive value"
  | SyntaxError_BigInt s => "Cannot convert " ++ s ++ " to a BigInt"
  | RangeError_BigInt _ => "The number cannot be converted to a BigInt"
  | SyntaxError_JSON _ => "Unexpected token in JSON"
  | ZodError schema _ => "Invalid input for " ++ schema
  end.

Definition runtime : Runtime := {|
  JSON_parse := json_parse;
  JSON_stringify := json_stringify;
  Buffer_toString_utf8 := fun bytes => bytes;
  Buffer_from_base64_toString_utf8 := from_base64;
  Buffer_toString_base64 := to_base64;
  Number_toString := number_toString;
  Number_of_string := number_of_string;
  Number_toFixed := number_toFixed;
  builtin_message := message
|}.

(** ** near-kit over a ledger that records what it executes *)

(** The delegate actions the ledger has executed, with the account that
    relayed each. *)
Definition Ledger : Type := list (jsstring * SignedDelegateAction).

Fixpoint lookup_blob (b : jsstring)
  (blobs : list (jsstring * SignedDelegateAction))
  : option SignedDelegateAction :=
  match blobs with
  | [] => None
  | (b', d) :: rest => if (b' =? b)%string then Some d else lookup_blob b rest
  end.

(** The nonce of a sender is used once. *)
Definition replayed (d : SignedDelegateAction) (l : Ledger) : bool :=
  existsb
    (fun entry =>
       let da := delegateAction (signedDelegate (snd entry)) in
       let db := delegateAction (signedDelegate d) in
       ((senderId da =? senderId db)%string && (nonce da =? nonce db)))
    l.

(** The value of a base58 string, most significant digit first. *)
Definition base58_alphabet : string :=
  "123456789ABCDEFGHJKLMNPQRSTUVWXYZabcdefghijkmnopqrstuvwxyz".

Fixpoint base58_digit (c : ascii) (alphabet : string) (i : Z) : option Z :=
  match alphabet with
  | EmptyString => None
  | String a rest =>
      if Ascii.eqb a c then Some i else base58_digit c rest (i + 1)
  end.

Fixpoint base58_value (s : string) (acc : Z) : option Z :=
  match s with
  | EmptyString => Some acc
  | String c rest =>
      match base58_digit c base58_alphabet 0 with
      | Some v => base58_value rest (acc * 58 + v)
      | None => None
      end
  end.

Fixpoint leading_ones (s : string) : Z :=
  match s with
  | String "1" rest => 1 + leading_ones rest
  | _ => 0
  end.

(** The number of bytes a base58 string decodes to: a zero byte for each
    leading digit 1, then the bytes of the value. *)
Definition base58_length (s : string) : option Z :=
  match base58_value s 0 with
  | Some n =>
      Some (leading_ones s + (if n =? 0 then 0 else Z.log2 n / 8 + 1))
  | None => None
  end.

(** An ed25519 secret key as near-kit reads it: the prefix, then the
    base58 of 64 bytes. *)
Definition ed25519_secret_key (key : jsstring) : bool :=
  String.prefix "ed25519:" key
  && match base58_length
             (String.substring 8 (String.length key - 8) key) with
     | Some 64 => true
     | _ => false
     end.

(** A decoder that knows the blobs of a table, a constructor that accepts
    ed25519 secret keys, and a relayer whose [send] appends to the ledger
    unless the nonce was used. *)
Definition nearkit (blobs : list (jsstring * SignedDelegateAction))
  : NearKit Ledger := {|
  decodeSignedDelegateAction := fun b64 =>
    match b64 with
    | JStr b =>
        match lookup_blob b blobs with
        | Some d => Ok d
        | None => Throw (External "Failed to decode signed delegate action")
        end
    | _ => Throw (External "Failed to decode signed delegate action")
    end;
  new_Near := fun config =>
    if ed25519_secret_key (privateKey config)
    then Ok config
    else Throw (External "Invalid key format");
  send := fun near signerId delegate l =>
    if replayed delegate l
    then (Throw (External "DelegateActionInvalidNonce"), l)
    else
      (Ok {| transaction_hash :=
               "tx" ++ decimal (Z.of_nat (List.length l));
             transaction_outcome_id :=
               "outcome" ++ decimal (Z.of_nat (List.length l));
             outcome_status := JObj [("SuccessValue", JStr "")] |},
       (l ++ [(signerId, delegate)])%list)
|}.

(** ** The seller's platform, with the facilitator behind [fetch] *)

Record World : Type := {
  ledger : Ledger;
  uuids : Z;      (* identifiers handed out so far *)
  clock : Z       (* milliseconds *)
}.

Fixpoint ends_with_fuel (fuel : nat) (suffix s : string) : bool :=
  match fuel with
  | O => false
  | S fuel' =>
      if (s =? suffix)%string then true
      else match s with
           | EmptyString => false
           | String _ r => ends_with_fuel fuel' suffix r
           end
  end.
Definition ends_with (suffix s : string) : bool :=
  ends_with_fuel (S (String.length s)) suffix s.

(** The facilitator as a service: the request body goes through
    [JSON.stringify] and [JSON.parse], the response body comes back. *)
Definition platform (blobs : list (jsstring * SignedDelegateAction))
  (fenv : Facilitator.Env) : Seller.Platform World := {|
  Seller.randomUUID := fun w =>
    ("uuid-" ++ decimal (uuids w),
     {| ledger := ledger w; uuids := uuids w + 1; clock := clock w |});
  Seller.Date_now := fun w =>
    (float_of_Z (clock w),
     {| ledger := ledger w; uuids := uuids w; clock := clock w + 1 |});
  Seller.fetch_json := fun url payload w =>
    let request :=
      {| Facilitator.json := json_parse (json_stringify payload) |} in
    let handler :=
      if ends_with "/verify" url
      then Some (Facilitator.post_verify runtime (nearkit blobs) request)
      else if ends_with "/settle" url
      then Some (Facilitator.post_settle runtime (nearkit blobs) fenv request)
      else None in
    match handler with
    | Some h =>
        let (r, l) := h (ledger w) in
        (bind r (fun response => Ok (body response)),
         {| ledger := l; uuids := uuids w; clock := clock w |})
    | None => (Throw (External "fetch failed"), w)
    end
|}.

(** ** The end-to-end scenario of the specification *)

(** [JSON.stringify({ receiver_id, amount, memo })], as the buyer builds the
    arguments of its transfer. *)
Definition transfer_args (receiver amount : string) : string :=
  "{" ++ quoted "receiver_id" ++ ":" ++ quoted receiver ++ ","
  ++ quoted "amount" ++ ":" ++ quoted amount ++ ","
  ++ quoted "memo" ++ ":" ++ quoted "x402 payment uuid-0" ++ "}".

(** The same with the amount written as a number. *)
Definition transfer_args_number (receiver amount : string) : string :=
  "{" ++ quoted "receiver_id" ++ ":" ++ quoted receiver ++ ","
  ++ quoted "amount" ++ ":" ++ amount ++ "}".

(** The same without the amount. *)
Definition transfer_args_without_amount (receiver : string) : string :=
  "{" ++ quoted "receiver_id" ++ ":" ++ quoted receiver ++ "}".

Definition ft_transfer (arguments : string) : Action :=
  FunctionCallAction
    {| methodName := "ft_transfer"; args := arguments;
       gas := 30000000000000; deposit := 1 |}.

Definition delegate (n : Z) (acts : list Action) : SignedDelegateAction :=
  {| signedDelegate :=
       {| delegateAction :=
            {| senderId := "buyer"; receiverId := "tok"; actions := acts;
               nonce := n; maxBlockHeight := 600;
               publicKey := "ed25519:buyer-key" |};
          signature := "signature" |} |}.

Definition pays_1000 : SignedDelegateAction :=
  delegate 1 [ft_transfer (transfer_args "seller" "1000")].
Definition pays_999 : SignedDelegateAction :=
  delegate 2 [ft_transfer (transfer_args "seller" "999")].
Definition pays_1001 : SignedDelegateAction :=
  delegate 3 [ft_transfer (transfer_args "seller" "1001")].
Definition pays_other : SignedDelegateAction :=
  delegate 4 [ft_transfer (transfer_args "other" "1000")].
(** Two transfers to the seller: 1 unit, then 1000. *)
Definition pays_twice : SignedDelegateAction :=
  delegate 5 [ft_transfer (transfer_args "seller" "1");
              ft_transfer (transfer_args "other" "7");
              ft_transfer (transfer_args "seller" "1000");
              OtherAction "transfer" (JObj [("deposit", JStr "1")])].
Definition pays_minus_5 : SignedDelegateAction :=
  delegate 6 [ft_transfer (transfer_args "seller" "-5")].
Definition pays_no_amount : SignedDelegateAction :=
  delegate 7 [ft_transfer (transfer_args_without_amount "seller")].
Definition pays_number : SignedDelegateAction :=
  delegate 8 [ft_transfer (transfer_args_number "seller" "9007199254740993")].

(** The blobs the example decoder knows; any other blob is not decodable. *)
Definition blobs : list (jsstring * SignedDelegateAction) :=
  [("Pays1000", pays_1000); ("Pays999", pays_999); ("Pays1001", pays_1001);
   ("PaysOther", pays_other); ("PaysTwice", pays_twice);
   ("PaysMinus5", pays_minus_5); ("PaysNoAmount", pays_no_amount);
   ("PaysNumber", pays_number)].

Definition near_kit : NearKit Ledger := nearkit blobs.

Definition payload_of (asset payTo network blob : jsstring)
  : Facilitator.PaymentPayload.t :=
  {| Facilitator.PaymentPayload.scheme := "near-delegate-exact";
     Facilitator.PaymentPayload.network := network;
     Facilitator.PaymentPayload.asset := asset;
     Facilitator.PaymentPayload.payTo := payTo;
     Facilitator.PaymentPayload.delegateB64 := blob;
     Facilitator.PaymentPayload.invoiceId := Some "uuid-0";
     Facilitator.PaymentPayload.maxAmountRequired := None |}.

Definition payload (blob : jsstring) : Facilitator.PaymentPayload.t :=
  payload_of "tok" "seller" "testnet" blob.

Definition requirements (amount : jsstring) : Facilitator.PaymentDetails.t :=
  {| Facilitator.PaymentDetails.scheme := "near-delegate-exact";
     Facilitator.PaymentDetails.network := "testnet";
     Facilitator.PaymentDetails.asset := "tok";
     Facilitator.PaymentDetails.payTo := "seller";
     Facilitator.PaymentDetails.amountExactAtomic := amount |}.

(** The payment object of the buyer, and the requirements, as JSON. *)
Definition payment_json (scheme asset blob : jsstring) : JSValue :=
  JObj [("scheme", JStr scheme); ("network", JStr "testnet");
        ("asset", JStr asset); ("payTo", JStr "seller");
        ("delegateB64", JStr blob); ("invoiceId", JStr "uuid-0")].

Definition requirements_json (scheme amount : jsstring) : JSValue :=
  JObj [("scheme", JStr scheme); ("network", JStr "testnet");
        ("asset", JStr "tok"); ("payTo", JStr "seller");
        ("amountExactAtomic", JStr amount)].

Definition verify_request (payment details : JSValue) : Facilitator.Request :=
  {| Facilitator.json :=
       Ok (JObj [("paymentPayload", payment); ("paymentDetails", details)]) |}.

Definition settle_request (blob : jsstring) : Facilitator.Request :=
  {| Facilitator.json := Ok (JObj [("delegateB64", JStr blob)]) |}.

(** The secret key of the first test of RFC 8032, as NEAR writes it. *)
Definition relayer_key : jsstring :=
  "ed25519:49W385L4rePHy6PAaQUovbD2aacgN4HsKXSMeUzRg4fmwXszN91JuMFrQRj3vMDpZuRF3ZknQBuRBoWQJEfXstMw".

Definition facilitator_env : Facilitator.Env :=
  {| Facilitator.NEAR_RPC_var := None;
     Facilitator.TOKEN_ACCOUNT_ID := Some "tok";
     Facilitator.SELLER_ACCOUNT_ID := Some "seller";
     Facilitator.RELAYER_ACCOUNT_ID := Some "relayer";
     Facilitator.RELAYER_PRIVATE_KEY := Some relayer_key;
     Facilitator.FACILITATOR_PORT_var := None |}.

Definition seller_env : Seller.Env :=
  {| Seller.NEAR_NETWORK_var := None;
     Seller.TOKEN_ACCOUNT_ID := Some "tok";
     Seller.SELLER_ACCOUNT_ID := Some "seller";
     Seller.PRICE_ATOMIC_var := None;
     Seller.SELLER_PORT_var := None;
     Seller.FACILITATOR_PORT_var := None |}.

Definition seller_platform : Seller.Platform World :=
  platform blobs facilitator_env.

(** The X-PAYMENT header of the buyer: base64 of the JSON of its payment. *)
Definition x_payment_header (blob : jsstring) : jsstring :=
  to_base64 (json_stringify (payment_json "near-delegate-exact" "tok" blob)).

Definition weather_request (header : option jsstring) : Seller.Request :=
  {| Seller.url := "http://localhost:4021/weather?city=San%20Jose";
     Seller.x_payment := header |}.

Definition world (l : Ledger) (n t : Z) : World :=
  {| ledger := l; uuids := n; clock := t |}.

End Examples.

(* ================================================================== *)
(** * What a caller sees of a result *)

(** Success or the exception, the value apart. *)
Definition verdict {A} (r : Result A) : Result unit :=
  match r with
  | Ok _ => Ok tt
  | Throw e => Throw e
  end.

(** The arguments of the transfer-type sub-actions of a delegate, in
    order: all that the loop of [verifyPayment] reads of its actions. *)
Definition transfer_args_of (d : SignedDelegateAction) : list string :=
  flat_map (fun a => match Facilitator.transfer_call a with
                     | Some fc => [args fc]
                     | None => []
                     end)
    (actions (delegateAction (signedDelegate d))).

(* ================================================================== *)
(** * The seller in front of the facilitator *)

Module Deployment.

Section Wiring.
Context {Ledger Aux : Type}.
Variable rt : Runtime.
Variable nk : NearKit Ledger.
Variable fenv : Facilitator.Env.
Variable senv : Seller.Env.
(** [crypto.randomUUID()] and [Date.now()] of the seller's process. *)
Variable uuid : Aux -> jsstring * Aux.
Variable now : Aux -> float * Aux.

(** The handler that answers a POST to [url]: the facilitator listens
    where the seller looks for it, and nothing else listens.  The body of
    the request reaches the handler as the value it is ([JSON.stringify] by
    the sender and [JSON.parse] by the receiver are taken to give the value
    back). *)
Definition serve (url : jsstring) (payload : JSValue)
  : option (Eff Ledger Response) :=
  if (url =? Seller.facilitator_url senv "/verify")%string
  then Some (Facilitator.post_verify rt nk {| Facilitator.json := Ok payload |})
  else if (url =? Seller.facilitator_url senv "/settle")%string
  then Some (Facilitator.post_settle rt nk fenv
               {| Facilitator.json := Ok payload |})
  else None.

(** The world of the seller: the ledger behind the facilitator, and the
    state of its own process.  [fetch] gives the body of the response back,
    as the value it is. *)
Definition platform : Seller.Platform (Ledger * Aux) := {|
  Seller.randomUUID := fun w =>
    let (id, a) := uuid (snd w) in (id, (fst w, a));
  Seller.Date_now := fun w =>
    let (t, a) := now (snd w) in (t, (fst w, a));
  Seller.fetch_json := fun url payload w =>
    match serve url payload with
    | Some handler =>
        let (r, l) := handler (fst w) in
        (bind r (fun response => Ok (body response)), (l, snd w))
    | None => (Throw (External "fetch failed"), w)
    end
|}.

(** The /weather handler of the deployed seller. *)
Definition get_weather (c : Seller.Request)
  : Eff (Ledger * Aux) Response :=
  Seller.get_weather rt platform senv c.

End Wiring.

End Deployment.

(* ================================================================== *)
(** * The buyer: what it signs and what it sends *)

Module Buyer.

Record Env : Type := {
  NEAR_RPC_var : envvar;
  TOKEN_ACCOUNT_ID : envvar;
  SELLER_ACCOUNT_ID : envvar;
  SELLER_PORT_var : envvar;
  BUYER_ACCOUNT_ID : envvar;
  BUYER_PRIVATE_KEY : envvar
}.

(** The checks at module level. *)
Definition startup (env : Env) : Result unit :=
  if unset (TOKEN_ACCOUNT_ID env) || unset (SELLER_ACCOUNT_ID env)
  then Throw (Error "Missing TOKEN_ACCOUNT_ID/SELLER_ACCOUNT_ID")
  else if unset (BUYER_ACCOUNT_ID env) || unset (BUYER_PRIVATE_KEY env)
  then Throw (Error "Missing BUYER creds")
  else Ok tt.

Section Main.
Variable rt : Runtime.
Variable env : Env.

(** The arguments of the ft_transfer call that [main] signs, for the entry
    [paymentReq] of [accepts] and the [invoice] of the 402:
    [{ receiver_id: SELLER_ACCOUNT_ID, amount: paymentReq.amountExactAtomic,
       memo: `x402 payment ${invoice.id}` }]. *)
Definition transfer_arguments (paymentReq invoice : JSValue)
  : Result JSValue :=
  amount <- get paymentReq "amountExactAtomic" ;;
  id <- get invoice "id" ;;
  id_text <- ToString (Number_toString rt) id ;;
  Ok (JObj [("receiver_id",
             Seller.AcceptsEntry.json_of_envvar (SELLER_ACCOUNT_ID env));
            ("amount", amount);
            ("memo", JStr ("x402 payment " ++ id_text))]).

(** The payment object of [main], [payload] being what near-kit returned
    for the signed delegate:
    [{ scheme: "near-delegate-exact", network: paymentReq.network,
       asset: paymentReq.asset, payTo: paymentReq.payTo,
       delegateB64: payload, invoiceId: invoice.id }]. *)
Definition payment (paymentReq invoice payload : JSValue) : Result JSValue :=
  network <- get paymentReq "network" ;;
  asset <- get paymentReq "asset" ;;
  payTo <- get paymentReq "payTo" ;;
  id <- get invoice "id" ;;
  Ok (JObj [("scheme", JStr "near-delegate-exact");
            ("network", network);
            ("asset", asset);
            ("payTo", payTo);
            ("delegateB64", payload);
            ("invoiceId", id)]).

(** The x-payment header:
    [Buffer.from(JSON.stringify(payment)).toString("base64")]. *)
Definition x_payment (payment : JSValue) : jsstring :=
  Buffer_toString_base64 rt (JSON_stringify rt payment).

End Main.

End Buyer.

(* ================================================================== *)
(** * More of the concrete scenario *)

Module MoreExamples.
Import Examples.

(** A delegate on another contract, with another sender, nonce, block
    height, key and signature than those of [Examples.delegate]. *)
Definition delegate_on (receiver : jsstring) (n : Z) (acts : list Action)
  : SignedDelegateAction :=
  {| signedDelegate :=
       {| delegateAction :=
            {| senderId := "someone-else"; receiverId := receiver;
               actions := acts; nonce := n; maxBlockHeight := 1;
               publicKey := "ed25519:another-key" |};
          signature := "another-signature" |} |}.

(** The transfer of 1000 to the seller, on a contract that is not the
    token. *)
Definition wrong_target : SignedDelegateAction :=
  delegate_on "other-token" 20 [ft_transfer (transfer_args "seller" "1000")].

(** The transfer of 1000 to the seller, then a call of ft_transfer whose
    arguments are no JSON. *)
Definition then_garbage : SignedDelegateAction :=
  delegate 21 [ft_transfer (transfer_args "seller" "1000");
               ft_transfer "not json"].

(** The transfer of 1000 to the seller as a call of ft_transfer_call with
    other gas and deposit, among a call of another method with arguments
    that are no JSON and an action of another kind. *)
Definition dressed_up : SignedDelegateAction :=
  delegate_on "tok" 22
    [FunctionCallAction
       {| methodName := "storage_deposit"; args := "not json";
          gas := 1; deposit := 1250000000000000000000 |};
     FunctionCallAction
       {| methodName := "ft_transfer_call";
          args := transfer_args "seller" "1000";
          gas := 5; deposit := 0 |};
     OtherAction "transfer" (JObj [("deposit", JStr "1")])].

(** A transfer to the seller without amount, then a call of ft_transfer
    whose arguments are no JSON. *)
Definition no_amount_then_garbage : SignedDelegateAction :=
  delegate 23 [ft_transfer (transfer_args_without_amount "seller");
               ft_transfer "not json"].

Definition blobs : list (jsstring * SignedDelegateAction) :=
  (Examples.blobs
   ++ [("WrongTarget", wrong_target); ("ThenGarbage", then_garbage);
       ("DressedUp", dressed_up);
       ("NoAmountThenGarbage", no_amount_then_garbage)])%list.

Definition near_kit : NearKit Ledger := nearkit blobs.

(** A payload for that blob, without invoice id and with an amount cap. *)
Definition dressed_payload : Facilitator.PaymentPayload.t :=
  {| Facilitator.PaymentPayload.scheme := "near-delegate-exact";
     Facilitator.PaymentPayload.network := "testnet";
     Facilitator.PaymentPayload.asset := "tok";
     Facilitator.PaymentPayload.payTo := "seller";
     Facilitator.PaymentPayload.delegateB64 := "DressedUp";
     Facilitator.PaymentPayload.invoiceId := None;
     Facilitator.PaymentPayload.maxAmountRequired := Some "1" |}.

(** The buyer of the scenario. *)
Definition buyer_env : Buyer.Env :=
  {| Buyer.NEAR_RPC_var := None;
     Buyer.TOKEN_ACCOUNT_ID := Some "tok";
     Buyer.SELLER_ACCOUNT_ID := Some "seller";
     Buyer.SELLER_PORT_var := None;
     Buyer.BUYER_ACCOUNT_ID := Some "buyer";
     Buyer.BUYER_PRIVATE_KEY := Some "ed25519:buyer-key" |}.

(** A buyer set up for another seller. *)
Definition misdirected_buyer_env : Buyer.Env :=
  {| Buyer.NEAR_RPC_var := None;
     Buyer.TOKEN_ACCOUNT_ID := Some "tok";
     Buyer.SELLER_ACCOUNT_ID := Some "other";
     Buyer.SELLER_PORT_var := None;
     Buyer.BUYER_ACCOUNT_ID := Some "buyer";
     Buyer.BUYER_PRIVATE_KEY := Some "ed25519:buyer-key" |}.

Definition resource : jsstring :=
  "http://localhost:4021/weather?city=San%20Jose".

(** The entry and the invoice of the 402 that the buyer answers. *)
Definition entry : JSValue := Seller.first_accepts runtime seller_env resource.
Definition invoice : JSValue :=
  JObj [("id", JStr "uuid-0"); ("createdAt", JNum 1000%float)].

(** The state of the seller's process: identifiers handed out, clock. *)
Definition next_uuid (a : Z * Z) : jsstring * (Z * Z) :=
  ("uuid-" ++ decimal (fst a), (fst a + 1, snd a)).
Definition next_now (a : Z * Z) : float * (Z * Z) :=
  (float_of_Z (snd a), (fst a, snd a + 1)).

(** The deployed seller of the scenario. *)
Definition deployed (c : Seller.Request)
  : Eff (Ledger * (Z * Z)) Response :=
  Deployment.get_weather runtime Examples.near_kit facilitator_env seller_env
    next_uuid next_now c.

(** The 200 of the scenario, and the 402 of a second settlement. *)
Definition paid_response : Response :=
  c_json
    [("x-payment-response",
      to_base64
        (json_stringify
           (JObj [("ok", JBool true); ("txHash", JStr "tx0");
                  ("blockHash", JStr "outcome0");
                  ("status", JObj [("SuccessValue", JStr "")])])))]
    (Seller.weather_report seller_env entry (JStr "tx0"))
    200.
Definition not_settled_response : Response :=
  c_json []
    (JObj [("error", JStr "PAYMENT_NOT_SETTLED");
           ("details", JStr "DelegateActionInvalidNonce")])
    402.

(** A facilitator whose relayer key is no key: it passes the check at
    module level. *)
Definition unusable_key_env : Facilitator.Env :=
  {| Facilitator.NEAR_RPC_var := None;
     Facilitator.TOKEN_ACCOUNT_ID := Some "tok";
     Facilitator.SELLER_ACCOUNT_ID := Some "seller";
     Facilitator.RELAYER_ACCOUNT_ID := Some "relayer";
     Facilitator.RELAYER_PRIVATE_KEY := Some "ed25519:relayer-key";
     Facilitator.FACILITATOR_PORT_var := None |}.

(** The relayer of the scenario. *)
Definition relayer : Near :=
  {| rpcUrl := "https://rpc.testnet.near.org"; networkId := "testnet";
     privateKey := relayer_key; defaultSignerId := "relayer" |}.

(** A platform on which no facilitator answers. *)
Definition nobody_listens : Seller.Platform World := {|
  Seller.randomUUID := Seller.randomUUID seller_platform;
  Seller.Date_now := Seller.Date_now seller_platform;
  Seller.fetch_json := fun _ _ w => (Throw (External "fetch failed"), w)
|}.

End MoreExamples.

(* ================================================================== *)
(** * Facts about the result monads *)

Lemma bind_Ok_inv {A B} (r : Result A) (k : A -> Result B) (b : B) :
  bind r k = Ok b -> exists a, r = Ok a /\ k a = Ok b.
Proof.
  destruct r as [a | e]; simpl; intros H.
  - exists a; split; [reflexivity | exact H].
  - discriminate H.
Qed.

Lemma strict_eq_string_true (v : JSValue) (s : jsstring) :
  strict_eq_string v s = true <-> v = JStr s.
Proof.
  destruct v; simpl; try (split; [discriminate | intros H; discriminate H]).
  rewrite String.eqb_eq. split; [intros -> | intros [= ->]]; reflexivity.
Qed.

Lemma strict_eq_string_false (v : JSValue) (s : jsstring) :
  strict_eq_string v s = false <-> v <> JStr s.
Proof.
  rewrite <- strict_eq_string_true.
  destruct (strict_eq_string v s); split; congruence.
Qed.

(* ================================================================== *)
(** * The facilitator: the loop of [verifyPayment] *)

Section ScanFacts.
Context {Ledger : Type}.
Variable rt : Runtime.
Variable nk : NearKit Ledger.

Import Facilitator.

(** The loop body, by cases on the vocabulary of the claims. *)
Lemma scan_action_eq (payTo : jsstring) (found : option Z) (a : Action) :
  scan_action rt payTo found a =
  match transfer_call a with
  | None => Ok found
  | Some fc =>
      r <- recipient_of rt fc ;;
      if strict_eq_string r payTo
      then v <- amount_of rt fc ;; Ok (Some v)
      else Ok found
  end.
Proof.
  destruct a as [fc | key content]; simpl; [| reflexivity].
  destruct ((methodName fc =? "ft_transfer")
            || (methodName fc =? "ft_transfer_call"))%string; [| reflexivity].
  unfold recipient_of, amount_of.
  destruct (JSON_parse rt (Buffer_toString_utf8 rt (args fc))) as [parsed | e];
    simpl; [| reflexivity].
  destruct (get parsed "receiver_id") as [rid | e]; simpl; [| reflexivity].
  assert (Hamount : forall r : JSValue,
             (if strict_eq_string r payTo
              then amount <- get parsed "amount" ;;
                   v <- BigInt (Number_toString rt) (or_else amount (JStr "0")) ;;
                   Ok (Some v)
              else Ok found) =
             (if strict_eq_string r payTo
              then v <- (amount <- get parsed "amount" ;;
                         BigInt (Number_toString rt)
                           (or_else amount (JStr "0"))) ;;
                   Ok (Some v)
              else Ok found)).
  { intros r. destruct (strict_eq_string r payTo); [| reflexivity].
    destruct (get parsed "amount"); reflexivity. }
  destruct (ToBoolean rid); simpl.
  - apply Hamount.
  - destruct (get parsed "receiverId") as [r | e]; simpl; [| reflexivity].
    apply Hamount.
Qed.

Lemma scan_action_matching payTo found a v :
  matching_transfer rt payTo a v ->
  scan_action rt payTo found a = Ok (Some v).
Proof.
  intros (fc & Hfc & Hr & Hv). rewrite scan_action_eq, Hfc, Hr. simpl.
  rewrite String.eqb_refl, Hv. reflexivity.
Qed.

Lemma scan_action_not_matching payTo found a :
  not_matching rt payTo a ->
  scan_action rt payTo found a = Ok found.
Proof.
  intros [Hnone | (fc & r & Hfc & Hr & Hne)]; rewrite scan_action_eq.
  - rewrite Hnone. reflexivity.
  - rewrite Hfc, Hr. simpl.
    apply strict_eq_string_false in Hne. rewrite Hne. reflexivity.
Qed.

(** An action the loop gets past either is a transfer to [payTo], and gives
    its amount, or is none, and leaves [foundAmount] as it was. *)
Lemma scan_action_inv payTo found a r :
  scan_action rt payTo found a = Ok r ->
  (exists v, matching_transfer rt payTo a v /\ r = Some v)
  \/ (not_matching rt payTo a /\ r = found).
Proof.
  rewrite scan_action_eq.
  destruct (transfer_call a) as [fc |] eqn:Hfc.
  - destruct (recipient_of rt fc) as [rc | e] eqn:Hr; simpl; [| discriminate].
    destruct (strict_eq_string rc payTo) eqn:Heq.
    + apply strict_eq_string_true in Heq. subst rc.
      destruct (amount_of rt fc) as [v | e] eqn:Hv; simpl; [| discriminate].
      intros [= <-]. left. exists v. split; [| reflexivity].
      exists fc. auto.
    + apply strict_eq_string_false in Heq.
      intros [= <-]. right. split; [| reflexivity].
      right. exists fc, rc. auto.
  - intros [= <-]. right. split; [left; exact Hfc | reflexivity].
Qed.

Lemma scan_actions_app payTo found l1 l2 :
  scan_actions rt payTo found (l1 ++ l2)%list =
  (f <- scan_actions rt payTo found l1 ;; scan_actions rt payTo f l2).
Proof.
  revert found. induction l1 as [| a l1 IH]; intros found; simpl.
  - reflexivity.
  - destruct (scan_action rt payTo found a) as [f | e]; simpl.
    + apply IH.
    + reflexivity.
Qed.

Lemma scan_actions_not_matching payTo found l :
  Forall (not_matching rt payTo) l ->
  scan_actions rt payTo found l = Ok found.
Proof.
  induction 1 as [| a l Ha _ IH]; simpl.
  - reflexivity.
  - rewrite (scan_action_not_matching _ _ _ Ha). simpl. exact IH.
Qed.

(** After a transfer to [payTo] that no later one follows, [foundAmount] is
    its amount, whatever it was before. *)
Lemma scan_actions_last payTo before last after found v :
  scan_actions rt payTo None before = Ok found ->
  matching_transfer rt payTo last v ->
  Forall (not_matching rt payTo) after ->
  scan_actions rt payTo None (before ++ last :: after)%list = Ok (Some v).
Proof.
  intros Hb Hl Ha. rewrite scan_actions_app, Hb. simpl.
  rewrite (scan_action_matching _ _ _ _ Hl). simpl.
  apply scan_actions_not_matching, Ha.
Qed.

(** What a loop that ends without exception has seen. *)
Lemma scan_actions_inv payTo l : forall found r,
  scan_actions rt payTo found l = Ok r ->
  (r = found /\ Forall (not_matching rt payTo) l)
  \/ (exists before last after found' v,
        l = (before ++ last :: after)%list
        /\ scan_actions rt payTo found before = Ok found'
        /\ matching_transfer rt payTo last v
        /\ Forall (not_matching rt payTo) after
        /\ r = Some v).
Proof.
  induction l as [| a l IH]; simpl; intros found r H.
  - injection H as <-. left. split; [reflexivity | constructor].
  - apply bind_Ok_inv in H. destruct H as (f1 & Ha & Hl).
    destruct (IH _ _ Hl) as [[-> Hall] | (before & last & after & f' & v & -> & Hb & Hm & Hafter & ->)].
    + destruct (scan_action_inv _ _ _ _ Ha) as [(v & Hm & ->) | [Hn ->]].
      * right. exists [], a, l, found, v. simpl. auto.
      * left. split; [reflexivity | constructor; assumption].
    + right. exists (a :: before), last, after, f', v. simpl.
      rewrite Ha. simpl. auto.
Qed.

(** ** [verifyPayment], rule by rule *)

Lemma verifyPayment_reaches_scan payload required d A :
  reaches_scan rt nk payload required d A ->
  verifyPayment rt nk payload required =
  (found <- observed_amount rt required d ;;
   match found with
   | None => Throw (Error "No transfer to seller found")
   | Some f => if f =? A then Ok d else Throw (Error "Amount mismatch")
   end).
Proof.
  intros (Ha & Hp & Hn & Hd & Ht & HA). unfold verifyPayment, observed_amount.
  rewrite Ha, Hp, Hn, !String.eqb_refl. cbn [negb].
  rewrite Hd. cbn [bind]. rewrite Ht, String.eqb_refl. cbn [negb].
  rewrite HA. cbn [bind].
  destruct (scan_actions _ _ _ _) as [[f |] | e]; cbn [bind]; try reflexivity.
  destruct (f =? A); reflexivity.
Qed.

(** Success, read backwards: every rule passed. *)
Lemma verifyPayment_Ok_inv payload required d :
  verifyPayment rt nk payload required = Ok d ->
  exists A, reaches_scan rt nk payload required d A
            /\ observed_amount rt required d = Ok (Some A).
Proof.
  unfold verifyPayment, reaches_scan, observed_amount.
  destruct (String.eqb_spec (PaymentPayload.asset payload)
              (PaymentDetails.asset required)) as [Ha |]; cbn [negb];
    [| discriminate].
  destruct (String.eqb_spec (PaymentPayload.payTo payload)
              (PaymentDetails.payTo required)) as [Hp |]; cbn [negb];
    [| discriminate].
  destruct (String.eqb_spec (PaymentPayload.network payload)
              (PaymentDetails.network required)) as [Hn |]; cbn [negb];
    [| discriminate].
  destruct (decodeSignedDelegateAction nk _) as [d' | e] eqn:Hd; cbn [bind];
    [| discriminate].
  destruct (String.eqb_spec (receiverId (delegateAction (signedDelegate d')))
              (PaymentDetails.asset required)) as [Ht |]; cbn [negb];
    [| discriminate].
  destruct (BigInt _ _) as [A | e] eqn:HA; cbn [bind]; [| discriminate].
  destruct (scan_actions _ _ _ _) as [[f |] | e] eqn:Hscan; cbn [bind];
    try discriminate.
  destruct (Z.eqb_spec f A) as [-> |]; cbn [negb]; [| discriminate].
  intros [= ->]. exists A. repeat split; assumption.
Qed.

End ScanFacts.

(* ================================================================== *)
(** * The facilitator: what [verifyPayment] accepts *)

Section VerifyPayment.
Context {Ledger : Type}.
Variable rt : Runtime.
Variable nk : NearKit Ledger.

Import Facilitator.

(** C1 (exactness).  When the payload passes rules 1 to 5 against
    requirements of amount [A], and the loop has observed the amount [A']
    of a transfer to [payTo], [verifyPayment] succeeds iff [A' = A], the two
    being compared as integers; any other observed amount, [A + 1] and
    [A - 1] among them, gives the error "Amount mismatch". *)
Theorem verify_exact_amount payload required d A A' :
  reaches_scan rt nk payload required d A ->
  observed_amount rt required d = Ok (Some A') ->
  (is_ok (verifyPayment rt nk payload required) = true <-> A' = A)
  /\ (A' = A -> verifyPayment rt nk payload required = Ok d)
  /\ (A' <> A ->
      verifyPayment rt nk payload required = Throw (Error "Amount mismatch"))
  /\ (A' = A + 1 \/ A' = A - 1 ->
      verifyPayment rt nk payload required = Throw (Error "Amount mismatch")).
Proof.
  intros Hreach Hobs.
  rewrite (verifyPayment_reaches_scan _ _ _ _ _ _ Hreach), Hobs. cbn [bind].
  destruct (Z.eqb_spec A' A) as [Heq | Hne].
  - repeat split; intros; solve [reflexivity | assumption | lia].
  - repeat split; intros; solve [reflexivity | discriminate | contradiction].
Qed.

(** C2 (validation order, field isolation).  asset, payTo and network are
    compared in this order and the first difference decides the error; when
    one of them differs, the result is the same for every decoder, every
    runtime and every other content of the payload: the blob is not decoded
    before the three checks. *)
Theorem field_checks_come_first payload required :
  (PaymentPayload.asset payload <> PaymentDetails.asset required ->
   verifyPayment rt nk payload required = Throw (Error "Asset mismatch"))
  /\ (PaymentPayload.asset payload = PaymentDetails.asset required ->
      PaymentPayload.payTo payload <> PaymentDetails.payTo required ->
      verifyPayment rt nk payload required = Throw (Error "Recipient mismatch"))
  /\ (PaymentPayload.asset payload = PaymentDetails.asset required ->
      PaymentPayload.payTo payload = PaymentDetails.payTo required ->
      PaymentPayload.network payload <> PaymentDetails.network required ->
      verifyPayment rt nk payload required = Throw (Error "Network mismatch"))
  /\ (PaymentPayload.asset payload <> PaymentDetails.asset required
      \/ PaymentPayload.payTo payload <> PaymentDetails.payTo required
      \/ PaymentPayload.network payload <> PaymentDetails.network required ->
      forall (Ledger' : Type) (rt' : Runtime) (nk' : NearKit Ledger')
             (payload' : PaymentPayload.t),
        PaymentPayload.asset payload' = PaymentPayload.asset payload ->
        PaymentPayload.payTo payload' = PaymentPayload.payTo payload ->
        PaymentPayload.network payload' = PaymentPayload.network payload ->
        verifyPayment rt' nk' payload' required
        = verifyPayment rt nk payload required).
Proof.
  unfold verifyPayment.
  repeat split.
  - intros Ha. apply String.eqb_neq in Ha. rewrite Ha. reflexivity.
  - intros Ha Hp. apply String.eqb_neq in Hp.
    rewrite Ha, String.eqb_refl, Hp. reflexivity.
  - intros Ha Hp Hn. apply String.eqb_neq in Hn.
    rewrite Ha, Hp, !String.eqb_refl, Hn. reflexivity.
  - intros Hdiff Ledger' rt' nk' payload' -> -> ->.
    destruct (String.eqb_spec (PaymentPayload.asset payload)
                (PaymentDetails.asset required)) as [Ha | Ha];
      cbn [negb]; [| reflexivity].
    destruct (String.eqb_spec (PaymentPayload.payTo payload)
                (PaymentDetails.payTo required)) as [Hp | Hp];
      cbn [negb]; [| reflexivity].
    destruct (String.eqb_spec (PaymentPayload.network payload)
                (PaymentDetails.network required)) as [Hn | Hn];
      cbn [negb]; [| reflexivity].
    destruct Hdiff as [H | [H | H]]; contradiction.
Qed.

(** C3 (the scan is exhaustive, the last match wins).  The amount that
    [verifyPayment] compares with the required one is the amount of the last
    transfer-type sub-action whose recipient is [payTo]: the loop ends with
    [v] exactly when the actions are [before ++ last :: after] with [last]
    such a transfer of amount [v] and none in [after], whatever [before]
    left in [foundAmount], an earlier match included. *)
Theorem last_matching_transfer_observed payload required d A v :
  reaches_scan rt nk payload required d A ->
  (observed_amount rt required d = Ok (Some v) <->
   exists before last after found,
     actions (delegateAction (signedDelegate d))
     = (before ++ last :: after)%list
     /\ scan_actions rt (PaymentDetails.payTo required) None before = Ok found
     /\ matching_transfer rt (PaymentDetails.payTo required) last v
     /\ Forall (not_matching rt (PaymentDetails.payTo required)) after)
  /\ (observed_amount rt required d = Ok (Some v) ->
      verifyPayment rt nk payload required
      = if v =? A then Ok d else Throw (Error "Amount mismatch")).
Proof.
  intros Hreach. split.
  - unfold observed_amount. split.
    + intros H. apply scan_actions_inv in H.
      destruct H as [[H _] | (before & last & after & found & v' & Hl & Hb & Hm & Ha & Hv)].
      * discriminate H.
      * injection Hv as ->. exists before, last, after, found. auto.
    + intros (before & last & after & found & -> & Hb & Hm & Ha).
      eapply scan_actions_last; eassumption.
  - intros Hobs.
    rewrite (verifyPayment_reaches_scan _ _ _ _ _ _ Hreach), Hobs.
    reflexivity.
Qed.

(** C6, as the code has it.  The two amounts are converted by [BigInt] to
    integers of either sign, and no sign is checked: [verifyPayment]
    succeeds exactly when rules 1 to 5 pass, the required amount converts
    to an integer [A], negative or not, and the loop observed that same
    integer. *)
Theorem verify_accepts_equal_integers payload required d :
  verifyPayment rt nk payload required = Ok d <->
  exists A : Z,
    reaches_scan rt nk payload required d A
    /\ observed_amount rt required d = Ok (Some A).
Proof.
  split.
  - apply verifyPayment_Ok_inv.
  - intros (A & Hreach & Hobs).
    rewrite (verifyPayment_reaches_scan _ _ _ _ _ _ Hreach), Hobs.
    cbn [bind]. rewrite Z.eqb_refl. reflexivity.
Qed.

(** C9, as the code has it.  Rules 1 to 5 pass and the required amount
    converts to an integer; the actions before the last transfer to [payTo]
    are read by the loop without an exception, and those after it are read
    without an exception and are no transfers to [payTo].  When that last
    transfer has no amount in its arguments, or the empty string, the
    observed amount is 0: [verifyPayment] succeeds iff the required amount
    converts to the integer 0, and gives "Amount mismatch" when it converts
    to another integer. *)
Theorem missing_amount_is_zero payload required d A
  before last after found fc parsed amount :
  reaches_scan rt nk payload required d A ->
  actions (delegateAction (signedDelegate d)) = (before ++ last :: after)%list ->
  scan_actions rt (PaymentDetails.payTo required) None before = Ok found ->
  transfer_call last = Some fc ->
  recipient_of rt fc = Ok (JStr (PaymentDetails.payTo required)) ->
  JSON_parse rt (Buffer_toString_utf8 rt (args fc)) = Ok parsed ->
  get parsed "amount" = Ok amount ->
  amount = JUndefined \/ amount = JStr "" ->
  Forall (not_matching rt (PaymentDetails.payTo required)) after ->
  observed_amount rt required d = Ok (Some 0)
  /\ (verifyPayment rt nk payload required = Ok d <-> A = 0)
  /\ (A <> 0 ->
      verifyPayment rt nk payload required = Throw (Error "Amount mismatch")).
Proof.
  intros Hreach Hacts Hbefore Hfc Hrec Hparsed Hget Hamount Hafter.
  assert (Hzero : amount_of rt fc = Ok 0).
  { unfold amount_of. rewrite Hparsed. cbn [bind]. rewrite Hget. cbn [bind].
    destruct Hamount as [-> | ->]; reflexivity. }
  assert (Hobs : observed_amount rt required d = Ok (Some 0)).
  { unfold observed_amount. rewrite Hacts.
    eapply scan_actions_last; [eassumption | | assumption].
    exists fc. auto. }
  split; [exact Hobs |].
  rewrite (verifyPayment_reaches_scan _ _ _ _ _ _ Hreach), Hobs. cbn [bind].
  destruct (Z.eqb_spec 0 A) as [<- | Hne]; split.
  - split; reflexivity.
  - intros H. contradiction H. reflexivity.
  - split; [discriminate | intros ->; contradiction Hne; reflexivity].
  - reflexivity.
Qed.

End VerifyPayment.

(* ================================================================== *)
(** * The facilitator: the two handlers *)

Section FacilitatorHandlers.
Context {Ledger : Type}.
Variable rt : Runtime.
Variable nk : NearKit Ledger.
Variable env : Facilitator.Env.

Import Facilitator.

Lemma payload_parse_violation p :
  violates_schema payload_fields p ->
  PaymentPayload.parse p = Throw (ZodError "PaymentPayload" p).
Proof.
  intros H. destruct p as [| | b | x | s | l | props]; try reflexivity.
  unfold PaymentPayload.parse. unfold violates_schema in H.
  cbn [get_optional] in H.
  destruct H as [(s & Hs & Hne) | (k & Hin & Hk)].
  - unfold z_literal at 1. rewrite Hs.
    apply String.eqb_neq in Hne. rewrite Hne. reflexivity.
  - assert (Hl : z_literal scheme_literal props k = None)
      by (unfold z_literal; rewrite Hk; reflexivity).
    assert (Hz : z_string props k = None)
      by (unfold z_string; rewrite Hk; reflexivity).
    cbn [payload_fields In] in Hin.
    destruct Hin as [<- | [<- | [<- | [<- | [<- | []]]]]];
      rewrite ?Hl, ?Hz;
      repeat match goal with
             | |- context [match ?x with Some _ => _ | None => _ end] =>
                 destruct x
             end; reflexivity.
Qed.

Lemma details_parse_violation q :
  violates_schema details_fields q ->
  PaymentDetails.parse q = Throw (ZodError "PaymentDetails" q).
Proof.
  intros H. destruct q as [| | b | x | s | l | props]; try reflexivity.
  unfold PaymentDetails.parse. unfold violates_schema in H.
  cbn [get_optional] in H.
  destruct H as [(s & Hs & Hne) | (k & Hin & Hk)].
  - unfold z_literal at 1. rewrite Hs.
    apply String.eqb_neq in Hne. rewrite Hne. reflexivity.
  - assert (Hl : z_literal scheme_literal props k = None)
      by (unfold z_literal; rewrite Hk; reflexivity).
    assert (Hz : z_string props k = None)
      by (unfold z_string; rewrite Hk; reflexivity).
    cbn [details_fields In] in Hin.
    destruct Hin as [<- | [<- | [<- | [<- | [<- | []]]]]];
      rewrite ?Hl, ?Hz;
      repeat match goal with
             | |- context [match ?x with Some _ => _ | None => _ end] =>
                 destruct x
             end; reflexivity.
Qed.

(** The handler of /verify, once the request is read: the response is that
    of the pure computation, and the ledger is the one it started with. *)
Lemma post_verify_eq c l req p q :
  json c = Ok req ->
  get req "paymentPayload" = Ok p ->
  get req "paymentDetails" = Ok q ->
  post_verify rt nk c l =
  (Ok (try_catch
         (payment <- PaymentPayload.parse p ;;
          required <- PaymentDetails.parse q ;;
          delegate <- verifyPayment rt nk payment required ;;
          Ok (c_json []
                (JObj [("valid", JBool true);
                       ("sender",
                        JStr (senderId
                                (delegateAction (signedDelegate delegate))))])
                200))
         (fun e =>
            c_json []
              (JObj [("valid", JBool false);
                     ("error", JStr (error_string rt e))]) 400)),
   l).
Proof.
  intros Hreq Hp Hq. unfold post_verify, ecatch, lift, eret.
  rewrite Hreq. cbn [bind]. rewrite Hp. cbn [bind]. rewrite Hq. cbn [bind].
  destruct (PaymentPayload.parse p) as [payment | e]; cbn [bind try_catch];
    [| reflexivity].
  destruct (PaymentDetails.parse q) as [required | e]; cbn [bind try_catch];
    [| reflexivity].
  destruct (verifyPayment rt nk payment required) as [d | e];
    reflexivity.
Qed.

Lemma post_verify_ledger c l : snd (post_verify rt nk c l) = l.
Proof.
  unfold post_verify, ecatch, lift, eret.
  match goal with
  | |- context [bind (json c) ?k] => destruct (bind (json c) k); reflexivity
  end.
Qed.

Lemma getRelayer_account relayer id :
  getRelayer nk env = Ok relayer ->
  RELAYER_ACCOUNT_ID env = Some id ->
  (id =? "")%string = false.
Proof.
  unfold getRelayer. intros H Hid. rewrite Hid in H.
  destruct (RELAYER_PRIVATE_KEY env) as [key |]; [| discriminate H].
  destruct (id =? "")%string; [discriminate H | reflexivity].
Qed.

(** [settlePayment] changes the ledger through [send] only. *)
Lemma settlePayment_ledger d l :
  snd (settlePayment nk env d l) = l
  \/ exists relayer id,
       getRelayer nk env = Ok relayer
       /\ RELAYER_ACCOUNT_ID env = Some id
       /\ snd (settlePayment nk env d l) = snd (send nk relayer id d l).
Proof.
  unfold settlePayment, ebind, lift, eret.
  destruct (getRelayer nk env) as [relayer | e] eqn:Hr; [| left; reflexivity].
  destruct (RELAYER_ACCOUNT_ID env) as [id |] eqn:Hid; [| left; reflexivity].
  rewrite (getRelayer_account _ _ Hr Hid).
  right. exists relayer, id. repeat split.
  destruct (send nk relayer id d l) as [[result | e] l']; reflexivity.
Qed.

(** C4, as the code has it.  A blob that the decoder rejects never is
    accepted, and no exception leaves a handler.  /settle answers 400 with
    [{ok: false, error}], the error being the decoder's.  /verify answers 400
    with [{valid: false, error}]; the error is the decoder's when the
    requirements pass their schema and asset, payTo and network match, and
    otherwise that of the earlier check that failed.  Neither touches the
    ledger. *)
Theorem undecodable_blob_is_rejected blob e :
  decodeSignedDelegateAction nk (JStr blob) = Throw e ->
  (forall c l req,
      json c = Ok req ->
      get req "delegateB64" = Ok (JStr blob) ->
      post_settle rt nk env c l
      = (Ok (c_json []
               (JObj [("ok", JBool false);
                      ("error", JStr (error_string rt e))]) 400),
         l))
  /\ (forall c l req p q payload,
         json c = Ok req ->
         get req "paymentPayload" = Ok p ->
         get req "paymentDetails" = Ok q ->
         PaymentPayload.parse p = Ok payload ->
         PaymentPayload.delegateB64 payload = blob ->
         exists error,
           post_verify rt nk c l
           = (Ok (c_json []
                    (JObj [("valid", JBool false); ("error", JStr error)])
                    400),
              l)
           /\ (forall required,
                  PaymentDetails.parse q = Ok required ->
                  PaymentPayload.asset payload = PaymentDetails.asset required ->
                  PaymentPayload.payTo payload = PaymentDetails.payTo required ->
                  PaymentPayload.network payload
                  = PaymentDetails.network required ->
                  error = error_string rt e)).
Proof.
  intros Hdecode. split.
  - intros c l req Hreq Hblob.
    unfold post_settle, ecatch, ebind, lift, eret.
    rewrite Hreq, Hblob, Hdecode. reflexivity.
  - intros c l req p q payload Hreq Hp Hq Hpayload Hcarries.
    rewrite (post_verify_eq c l req p q Hreq Hp Hq), Hpayload. cbn [bind].
    destruct (PaymentDetails.parse q) as [required | ez]; cbn [bind try_catch].
    + destruct (verifyPayment rt nk payload required) as [d | ev] eqn:Hv;
        cbn [bind try_catch].
      * apply verifyPayment_Ok_inv in Hv.
        destruct Hv as (A & (_ & _ & _ & Hd & _) & _).
        rewrite Hcarries, Hdecode in Hd. discriminate Hd.
      * exists (error_string rt ev). split; [reflexivity |].
        intros required' [= <-] Ha Hpay Hn.
        unfold verifyPayment in Hv.
        rewrite Ha, Hpay, Hn, !String.eqb_refl in Hv. cbn [negb] in Hv.
        rewrite Hcarries, Hdecode in Hv. cbn [bind] in Hv.
        injection Hv as <-. reflexivity.
    + exists (error_string rt ez). split; [reflexivity |].
      intros required' H. discriminate H.
Qed.

(** C8 (frame).  /verify leaves the ledger as it found it, on every
    request.  /settle changes it through the relayer's [send] only: it is
    the ledger after [send] on the decoded delegate when the blob decodes
    and [getRelayer] returns the relayer, and in every case either that or
    the ledger it started with. *)
Theorem only_settle_submits :
  (forall c l, snd (post_verify rt nk c l) = l)
  /\ (forall c l req b d relayer id,
         json c = Ok req ->
         get req "delegateB64" = Ok b ->
         decodeSignedDelegateAction nk b = Ok d ->
         getRelayer nk env = Ok relayer ->
         RELAYER_ACCOUNT_ID env = Some id ->
         snd (post_settle rt nk env c l) = snd (send nk relayer id d l))
  /\ (forall c l,
         snd (post_settle rt nk env c l) = l
         \/ exists relayer id d,
              snd (post_settle rt nk env c l) = snd (send nk relayer id d l)).
Proof.
  split; [exact post_verify_ledger |]. split.
  - intros c l req b d relayer id Hreq Hb Hd Hr Hid.
    unfold post_settle, ecatch, ebind, lift, eret.
    rewrite Hreq, Hb, Hd. unfold settlePayment, ebind, lift, eret.
    rewrite Hr, Hid, (getRelayer_account relayer id Hr Hid).
    destruct (send nk relayer id d l) as [[result | e] l']; reflexivity.
  - intros c l. unfold post_settle, ecatch, ebind, lift, eret.
    destruct (json c) as [req | e]; [| left; reflexivity].
    destruct (get req "delegateB64") as [b | e]; [| left; reflexivity].
    destruct (decodeSignedDelegateAction nk b) as [d | e];
      [| left; reflexivity].
    destruct (settlePayment_ledger d l) as [H | (relayer & id & _ & _ & H)].
    + left. rewrite <- H at 2.
      destruct (settlePayment nk env d l) as [[s | e] l']; reflexivity.
    + right. exists relayer, id, d. rewrite <- H.
      destruct (settlePayment nk env d l) as [[s | e] l']; reflexivity.
Qed.

(** C10 (schema before fields).  A payload whose scheme is a string other
    than "near-delegate-exact", or that lacks a required property, is
    rejected by its schema: /verify answers 400 with [{valid: false, error}],
    the error being the schema's, whatever the other properties and the
    requirements are; the requirements are held to the same schema once the
    payload has passed. *)
Theorem schema_is_checked_first c l req p q :
  json c = Ok req ->
  get req "paymentPayload" = Ok p ->
  get req "paymentDetails" = Ok q ->
  (violates_schema payload_fields p ->
   PaymentPayload.parse p = Throw (ZodError "PaymentPayload" p)
   /\ post_verify rt nk c l
      = (Ok (c_json []
               (JObj [("valid", JBool false);
                      ("error",
                       JStr (error_string rt (ZodError "PaymentPayload" p)))])
               400),
         l))
  /\ (forall payload,
         PaymentPayload.parse p = Ok payload ->
         violates_schema details_fields q ->
         PaymentDetails.parse q = Throw (ZodError "PaymentDetails" q)
         /\ post_verify rt nk c l
            = (Ok (c_json []
                     (JObj [("valid", JBool false);
                            ("error",
                             JStr (error_string rt
                                     (ZodError "PaymentDetails" q)))])
                     400),
               l)).
Proof.
  intros Hreq Hp Hq. rewrite (post_verify_eq c l req p q Hreq Hp Hq). split.
  - intros Hv. apply payload_parse_violation in Hv. rewrite Hv.
    split; reflexivity.
  - intros payload Hpayload Hv. apply details_parse_violation in Hv.
    rewrite Hpayload, Hv. split; reflexivity.
Qed.

End FacilitatorHandlers.

(* ================================================================== *)
(** * The seller: the /weather handler *)

Section SellerHandler.
Context {World : Type}.
Variable rt : Runtime.
Variable pf : Seller.Platform World.
Variable env : Seller.Env.

Import Seller.

Lemma challenge_eq c w :
  challenge rt pf env c w =
  (Ok (c_json []
         (JObj [("message", JStr "Payment Required");
                ("accepts",
                 JArr (map AcceptsEntry.to_json (buildAccepts rt env (url c))));
                ("invoice",
                 JObj [("id", JStr (fst (randomUUID pf w)));
                       ("createdAt",
                        JNum (fst (Date_now pf (snd (randomUUID pf w)))))])])
         402),
   snd (Date_now pf (snd (randomUUID pf w)))).
Proof.
  unfold challenge.
  destruct (randomUUID pf w) as [id w1]. cbn [fst snd].
  destruct (Date_now pf w1) as [t w2]. reflexivity.
Qed.




(** C7 (the requirements are derived, not generated).  Two requests
    without payment for the same URL, under the same configuration, get a
    402 each with the same [accepts], which is [buildAccepts] of the URL and
    has nothing of the world in it; the two bodies differ by the id and the
    creation time of the invoice at most. *)
Theorem challenge_accepts_are_stable c1 c2 w1 w2 :
  url c1 = url c2 ->
  x_payment c1 = None \/ x_payment c1 = Some "" ->
  x_payment c2 = None \/ x_payment c2 = Some "" ->
  buildAccepts rt env (url c1) = buildAccepts rt env (url c2)
  /\ exists id1 t1 w1' id2 t2 w2',
       get_weather rt pf env c1 w1
       = (Ok (c_json []
                (JObj [("message", JStr "Payment Required");
                       ("accepts",
                        JArr (map AcceptsEntry.to_json
                                (buildAccepts rt env (url c1))));
                       ("invoice",
                        JObj [("id", JStr id1); ("createdAt", JNum t1)])])
                402),
          w1')
       /\ get_weather rt pf env c2 w2
          = (Ok (c_json []
                   (JObj [("message", JStr "Payment Required");
                          ("accepts",
                           JArr (map AcceptsEntry.to_json
                                   (buildAccepts rt env (url c1))));
                          ("invoice",
                           JObj [("id", JStr id2); ("createdAt", JNum t2)])])
                   402),
             w2').
Proof.
  intros Hurl H1 H2. split; [rewrite Hurl; reflexivity |].
  assert (Hchallenge : forall c w,
             x_payment c = None \/ x_payment c = Some "" ->
             get_weather rt pf env c w = challenge rt pf env c w).
  { intros c w [H | H]; unfold get_weather; rewrite H; reflexivity. }
  rewrite (Hchallenge c1 w1 H1), (Hchallenge c2 w2 H2), !challenge_eq.
  rewrite <- Hurl. do 6 eexists. split; reflexivity.
Qed.

End SellerHandler.

(* ================================================================== *)
(** * The theorems at work on the scenario of the specification *)

Module Scenario.
Import Facilitator Examples.

(** Requirements of 1000 to "seller" in "tok": the authorization of 1000
    verifies, those of 999 and of 1001 give "Amount mismatch". *)
Lemma verify_exact_amount_witness :
  verifyPayment runtime near_kit (payload "Pays1000") (requirements "1000")
  = Ok pays_1000
  /\ verifyPayment runtime near_kit (payload "Pays999") (requirements "1000")
     = Throw (Error "Amount mismatch")
  /\ verifyPayment runtime near_kit (payload "Pays1001") (requirements "1000")
     = Throw (Error "Amount mismatch").
Proof.
  destruct (verify_exact_amount runtime near_kit
              (payload "Pays1000") (requirements "1000") pays_1000 1000 1000)
    as (_ & Hsame & _); [repeat split; reflexivity | reflexivity |].
  destruct (verify_exact_amount runtime near_kit
              (payload "Pays999") (requirements "1000") pays_999 1000 999)
    as (_ & _ & _ & Hless); [repeat split; reflexivity | reflexivity |].
  destruct (verify_exact_amount runtime near_kit
              (payload "Pays1001") (requirements "1000") pays_1001 1000 1001)
    as (_ & _ & _ & Hmore); [repeat split; reflexivity | reflexivity |].
  split; [| split].
  - apply Hsame. reflexivity.
  - apply Hless. right. reflexivity.
  - apply Hmore. left. reflexivity.
Defined.

(** A payload for another token, another recipient, another network: the
    first difference decides, and the blob, undecodable here, is not read. *)
Lemma field_checks_come_first_witness :
  verifyPayment runtime near_kit
    (payload_of "other-token" "other" "mainnet" "garbage") (requirements "1000")
  = Throw (Error "Asset mismatch")
  /\ verifyPayment runtime near_kit
       (payload_of "tok" "other" "mainnet" "garbage") (requirements "1000")
     = Throw (Error "Recipient mismatch")
  /\ verifyPayment runtime near_kit
       (payload_of "tok" "seller" "mainnet" "garbage") (requirements "1000")
     = Throw (Error "Network mismatch").
Proof.
  split; [| split].
  - apply (proj1 (field_checks_come_first runtime near_kit
                    (payload_of "other-token" "other" "mainnet" "garbage")
                    (requirements "1000"))).
    discriminate.
  - apply (proj1 (proj2 (field_checks_come_first runtime near_kit
                           (payload_of "tok" "other" "mainnet" "garbage")
                           (requirements "1000")))).
    + reflexivity.
    + discriminate.
  - apply (proj1 (proj2 (proj2 (field_checks_come_first runtime near_kit
                                  (payload_of "tok" "seller" "mainnet" "garbage")
                                  (requirements "1000"))))).
    + reflexivity.
    + reflexivity.
    + discriminate.
Defined.

(** Two transfers to the seller, of 1 and then of 1000, a transfer to
    another account between them: the amount observed is 1000. *)
Lemma last_matching_transfer_observed_witness :
  observed_amount runtime (requirements "1000") pays_twice = Ok (Some 1000)
  /\ verifyPayment runtime near_kit (payload "PaysTwice") (requirements "1000")
     = Ok pays_twice
  /\ verifyPayment runtime near_kit (payload "PaysTwice") (requirements "1")
     = Throw (Error "Amount mismatch").
Proof.
  assert (Hobs : observed_amount runtime (requirements "1000") pays_twice
                 = Ok (Some 1000)).
  { apply (proj1 (last_matching_transfer_observed runtime near_kit
                    (payload "PaysTwice") (requirements "1000") pays_twice
                    1000 1000 ltac:(repeat split; reflexivity))).
    exists [ft_transfer (transfer_args "seller" "1");
            ft_transfer (transfer_args "other" "7")],
           (ft_transfer (transfer_args "seller" "1000")),
           [OtherAction "transfer" (JObj [("deposit", JStr "1")])],
           (Some 1).
    split; [reflexivity |]. split; [reflexivity |]. split.
    - eexists. repeat split; reflexivity.
    - constructor; [left; reflexivity | constructor]. }
  split; [| split].
  - exact Hobs.
  - apply (proj2 (last_matching_transfer_observed runtime near_kit
                    (payload "PaysTwice") (requirements "1000") pays_twice
                    1000 1000 ltac:(repeat split; reflexivity))).
    exact Hobs.
  - apply (proj2 (last_matching_transfer_observed runtime near_kit
                    (payload "PaysTwice") (requirements "1") pays_twice
                    1 1000 ltac:(repeat split; reflexivity))).
    exact Hobs.
Defined.

(** C4, refuted as stated: the payload names another token and carries a
    blob that does not decode; /verify reports "Asset mismatch", not the
    decoder's error. *)
Lemma verify_reports_the_earlier_failure :
  decodeSignedDelegateAction near_kit (JStr "garbage")
  = Throw (External "Failed to decode signed delegate action")
  /\ post_verify runtime near_kit
       (verify_request
          (payment_json "near-delegate-exact" "other-token" "garbage")
          (requirements_json "near-delegate-exact" "1000")) []
     = (Ok (c_json []
              (JObj [("valid", JBool false);
                     ("error", JStr "Asset mismatch")]) 400),
        []).
Proof.
  split; reflexivity.
Qed.

(** The same blob with a payload that passes the earlier checks, and at
    /settle: both answer 400 with the decoder's error. *)
Lemma undecodable_blob_is_rejected_witness :
  post_settle runtime near_kit facilitator_env (settle_request "garbage") []
  = (Ok (c_json []
           (JObj [("ok", JBool false);
                  ("error", JStr "Failed to decode signed delegate action")])
           400),
     [])
  /\ post_verify runtime near_kit
       (verify_request (payment_json "near-delegate-exact" "tok" "garbage")
          (requirements_json "near-delegate-exact" "1000")) []
     = (Ok (c_json []
              (JObj [("valid", JBool false);
                     ("error",
                      JStr "Failed to decode signed delegate action")])
              400),
        []).
Proof.
  destruct (undecodable_blob_is_rejected runtime near_kit facilitator_env
              "garbage" (External "Failed to decode signed delegate action")
              eq_refl) as [Hsettle Hverify].
  split.
  - apply (Hsettle (settle_request "garbage") []
             (JObj [("delegateB64", JStr "garbage")])); reflexivity.
  - destruct (Hverify
                (verify_request
                   (payment_json "near-delegate-exact" "tok" "garbage")
                   (requirements_json "near-delegate-exact" "1000"))
                []
                (JObj [("paymentPayload",
                        payment_json "near-delegate-exact" "tok" "garbage");
                       ("paymentDetails",
                        requirements_json "near-delegate-exact" "1000")])
                (payment_json "near-delegate-exact" "tok" "garbage")
                (requirements_json "near-delegate-exact" "1000")
                (payload "garbage")
                eq_refl eq_refl eq_refl eq_refl eq_refl)
      as (error & Hresponse & Herror).
    rewrite Hresponse.
    rewrite (Herror (requirements "1000") eq_refl eq_refl eq_refl eq_refl).
    reflexivity.
Defined.

(** C6, refuted as stated: requirements of -5 and an authorization that
    transfers -5 to the seller; [verifyPayment] accepts it. *)
Lemma verify_accepts_a_negative_amount :
  BigInt (Number_toString runtime) (JStr "-5") = Ok (-5)
  /\ observed_amount runtime (requirements "-5") pays_minus_5 = Ok (Some (-5))
  /\ verifyPayment runtime near_kit (payload "PaysMinus5") (requirements "-5")
     = Ok pays_minus_5.
Proof.
  split; [| split]; reflexivity.
Qed.

(** An amount written as a JSON number reaches [BigInt] as a Number:
    2^53 + 1 in the arguments is observed as 2^53. *)
Lemma number_amount_is_observed_rounded :
  observed_amount runtime (requirements "9007199254740992") pays_number
  = Ok (Some 9007199254740992)
  /\ verifyPayment runtime near_kit (payload "PaysNumber")
       (requirements "9007199254740992")
     = Ok pays_number.
Proof.
  split; reflexivity.
Qed.

(** The rules that hold of an authorization that verified, here the one of
    -5: both amounts are the integer -5. *)
Lemma verify_accepts_equal_integers_witness :
  exists A : Z,
    reaches_scan runtime near_kit (payload "PaysMinus5") (requirements "-5")
      pays_minus_5 A
    /\ observed_amount runtime (requirements "-5") pays_minus_5 = Ok (Some A).
Proof.
  apply (proj1 (verify_accepts_equal_integers runtime near_kit
                  (payload "PaysMinus5") (requirements "-5") pays_minus_5)).
  reflexivity.
Defined.

(** C9, refuted as stated: the transfer has no amount; requirements whose
    amount is "00", which is not the string "0", verify; requirements whose
    amount is "1.0" fail with the error of the conversion, not with
    "Amount mismatch". *)
Lemma missing_amount_verifies_against_00 :
  PaymentDetails.amountExactAtomic (requirements "00") <> "0"
  /\ verifyPayment runtime near_kit (payload "PaysNoAmount") (requirements "00")
     = Ok pays_no_amount
  /\ verifyPayment runtime near_kit (payload "PaysNoAmount")
       (requirements "1.0")
     = Throw (SyntaxError_BigInt "1.0").
Proof.
  split; [discriminate | split; reflexivity].
Qed.

(** A transfer to the seller without amount: it verifies against
    requirements of "0", and gives "Amount mismatch" against 1000. *)
Lemma missing_amount_is_zero_witness :
  verifyPayment runtime near_kit (payload "PaysNoAmount") (requirements "0")
  = Ok pays_no_amount
  /\ verifyPayment runtime near_kit (payload "PaysNoAmount")
       (requirements "1000")
     = Throw (Error "Amount mismatch").
Proof.
  assert (H : forall amount A,
             StringToBigInt amount = Some A ->
             (verifyPayment runtime near_kit (payload "PaysNoAmount")
                (requirements amount) = Ok pays_no_amount <-> A = 0)
             /\ (A <> 0 ->
                 verifyPayment runtime near_kit (payload "PaysNoAmount")
                   (requirements amount)
                 = Throw (Error "Amount mismatch"))).
  { intros amount A HA.
    apply (missing_amount_is_zero runtime near_kit
             (payload "PaysNoAmount") (requirements amount) pays_no_amount A
             [] (ft_transfer (transfer_args_without_amount "seller")) [] None
             {| methodName := "ft_transfer";
                args := transfer_args_without_amount "seller";
                gas := 30000000000000; deposit := 1 |}
             (JObj [("receiver_id", JStr "seller")]) JUndefined).
    - repeat split; try reflexivity.
      cbn [BigInt PaymentDetails.amountExactAtomic requirements].
      unfold BigInt_string. rewrite HA. reflexivity.
    - reflexivity.
    - reflexivity.
    - reflexivity.
    - reflexivity.
    - reflexivity.
    - reflexivity.
    - left. reflexivity.
    - constructor. }
  split.
  - apply (proj1 (H "0" 0 eq_refl)). reflexivity.
  - apply (proj2 (H "1000" 1000 eq_refl)). discriminate.
Defined.

(** /verify on an authorization that verifies leaves the ledger empty;
    /settle on it puts it on the ledger, relayed by the relayer. *)
Lemma only_settle_submits_witness :
  snd (post_verify runtime near_kit
         (verify_request (payment_json "near-delegate-exact" "tok" "Pays1000")
            (requirements_json "near-delegate-exact" "1000")) [])
  = []
  /\ snd (post_settle runtime near_kit facilitator_env
            (settle_request "Pays1000") [])
     = [("relayer", pays_1000)].
Proof.
  destruct (only_settle_submits runtime near_kit facilitator_env)
    as (Hverify & Hsettle & _).
  split.
  - apply Hverify.
  - rewrite (Hsettle (settle_request "Pays1000") []
               (JObj [("delegateB64", JStr "Pays1000")]) (JStr "Pays1000")
               pays_1000
               {| rpcUrl := "https://rpc.testnet.near.org";
                  networkId := "testnet";
                  privateKey := relayer_key;
                  defaultSignerId := "relayer" |}
               "relayer" eq_refl eq_refl eq_refl eq_refl eq_refl).
    reflexivity.
Defined.

(** A payload of scheme "exact", for another token besides: the schema
    rejects it, and the error is the schema's, not "Asset mismatch"; so for
    requirements of scheme "exact" under a payload that passes. *)
Lemma schema_is_checked_first_witness :
  post_verify runtime near_kit
    (verify_request (payment_json "exact" "other-token" "Pays1000")
       (requirements_json "near-delegate-exact" "1000")) []
  = (Ok (c_json []
           (JObj [("valid", JBool false);
                  ("error", JStr "Invalid input for PaymentPayload")]) 400),
     [])
  /\ post_verify runtime near_kit
       (verify_request (payment_json "near-delegate-exact" "tok" "Pays1000")
          (requirements_json "exact" "1000")) []
     = (Ok (c_json []
              (JObj [("valid", JBool false);
                     ("error", JStr "Invalid input for PaymentDetails")]) 400),
        []).
Proof.
  split.
  - destruct (schema_is_checked_first runtime near_kit
                (verify_request (payment_json "exact" "other-token" "Pays1000")
                   (requirements_json "near-delegate-exact" "1000"))
                []
                (JObj [("paymentPayload",
                        payment_json "exact" "other-token" "Pays1000");
                       ("paymentDetails",
                        requirements_json "near-delegate-exact" "1000")])
                (payment_json "exact" "other-token" "Pays1000")
                (requirements_json "near-delegate-exact" "1000")
                eq_refl eq_refl eq_refl) as [Hpayload _].
    destruct Hpayload as [_ Hresponse].
    + left. exists "exact". split; [reflexivity | discriminate].
    + rewrite Hresponse. reflexivity.
  - destruct (schema_is_checked_first runtime near_kit
                (verify_request
                   (payment_json "near-delegate-exact" "tok" "Pays1000")
                   (requirements_json "exact" "1000"))
                []
                (JObj [("paymentPayload",
                        payment_json "near-delegate-exact" "tok" "Pays1000");
                       ("paymentDetails", requirements_json "exact" "1000")])
                (payment_json "near-delegate-exact" "tok" "Pays1000")
                (requirements_json "exact" "1000")
                eq_refl eq_refl eq_refl) as [_ Hdetails].
    destruct (Hdetails (payload "Pays1000") eq_refl) as [_ Hresponse].
    + left. exists "exact". split; [reflexivity | discriminate].
    + rewrite Hresponse. reflexivity.
Defined.


(** Two requests without payment, in two worlds: the same [accepts], two
    invoices. *)
Lemma challenge_accepts_are_stable_witness :
  exists response1 w1 response2 w2,
    Seller.get_weather runtime seller_platform seller_env
      (weather_request None) (world [] 0 1000) = (Ok response1, w1)
    /\ Seller.get_weather runtime seller_platform seller_env
         (weather_request (Some "")) (world [] 7 2000) = (Ok response2, w2)
    /\ get_optional (body response1) "accepts"
       = get_optional (body response2) "accepts"
    /\ get_optional (body response1) "invoice"
       = JObj [("id", JStr "uuid-0"); ("createdAt", JNum 1000%float)]
    /\ get_optional (body response2) "invoice"
       = JObj [("id", JStr "uuid-7"); ("createdAt", JNum 2000%float)].
Proof.
  destruct (challenge_accepts_are_stable runtime seller_platform seller_env
              (weather_request None) (weather_request (Some ""))
              (world [] 0 1000) (world [] 7 2000)
              eq_refl (or_introl eq_refl) (or_intror eq_refl))
    as (_ & id1 & t1 & w1 & id2 & t2 & w2 & H1 & H2).
  eexists _, w1, _, w2.
  split; [exact H1 |]. split; [exact H2 |].
  split; [reflexivity |].
  assert (E1 := H1). assert (E2 := H2).
  vm_compute in E1. vm_compute in E2.
  injection E1 as <- <- _. injection E2 as <- <- _.
  split; reflexivity.
Defined.

End Scenario.

(* ================================================================== *)
(** * [verifyPayment]: the rules after the field checks *)

Section VerifyPaymentRules.
Context {Ledger : Type}.
Variable rt : Runtime.
Variable nk : NearKit Ledger.

Import Facilitator.

(** The loop reads an action through [transfer_call] and its arguments. *)
Lemma scan_action_args payTo found a :
  scan_action rt payTo found a =
  scan_actions rt payTo found
    (map (fun bytes =>
            FunctionCallAction
              {| methodName := "ft_transfer"; args := bytes;
                 gas := 0; deposit := 0 |})
       (match transfer_call a with
        | Some fc => [args fc]
        | None => []
        end)).
Proof.
  rewrite scan_action_eq.
  destruct (transfer_call a) as [fc |]; cbn [map scan_actions].
  - rewrite scan_action_eq. cbn [transfer_call methodName].
    change (("ft_transfer" =? "ft_transfer") || ("ft_transfer" =? "ft_transfer_call"))%string
      with true.
    cbv iota. unfold recipient_of, amount_of. cbn [args].
    destruct (bind (JSON_parse rt (Buffer_toString_utf8 rt (args fc))) _)
      as [r | e]; cbn [bind]; [| reflexivity].
    destruct (strict_eq_string r payTo); [| reflexivity].
    destruct (bind (JSON_parse rt (Buffer_toString_utf8 rt (args fc))) _)
      as [v | e]; reflexivity.
  - reflexivity.
Qed.

Lemma scan_actions_args payTo l : forall found,
  scan_actions rt payTo found l =
  scan_actions rt payTo found
    (map (fun bytes =>
            FunctionCallAction
              {| methodName := "ft_transfer"; args := bytes;
                 gas := 0; deposit := 0 |})
       (flat_map (fun a => match transfer_call a with
                           | Some fc => [args fc]
                           | None => []
                           end) l)).
Proof.
  induction l as [| a l IH]; intros found; cbn [flat_map scan_actions map].
  - reflexivity.
  - rewrite map_app, scan_actions_app, <- scan_action_args.
    destruct (scan_action rt payTo found a) as [f | e]; cbn [bind].
    + apply IH.
    + reflexivity.
Qed.

(** X1 (wrong target).  A delegate whose receiver is not the required
    asset is rejected with "Delegate must target token contract" once the
    three fields match and the blob decodes, whatever its actions are and
    whether or not the required amount is an integer. *)
Theorem wrong_target_is_rejected payload required d :
  PaymentPayload.asset payload = PaymentDetails.asset required ->
  PaymentPayload.payTo payload = PaymentDetails.payTo required ->
  PaymentPayload.network payload = PaymentDetails.network required ->
  decodeSignedDelegateAction nk (JStr (PaymentPayload.delegateB64 payload))
  = Ok d ->
  receiverId (delegateAction (signedDelegate d))
  <> PaymentDetails.asset required ->
  verifyPayment rt nk payload required
  = Throw (Error "Delegate must target token contract").
Proof.
  intros Ha Hp Hn Hd Ht. unfold verifyPayment.
  rewrite Ha, Hp, Hn, !String.eqb_refl. cbn [negb].
  rewrite Hd. cbn [bind].
  apply String.eqb_neq in Ht. rewrite Ht. reflexivity.
Qed.

(** X2 (a price that is no integer).  When the required amount is not an
    integer literal, no payload verifies against the requirements; a
    payload that passes rules 1 to 5 fails with the SyntaxError of [BigInt],
    raised before the actions are read. *)
Theorem unparsable_requirement_fails_every_payment required :
  StringToBigInt (PaymentDetails.amountExactAtomic required) = None ->
  (forall payload d, verifyPayment rt nk payload required <> Ok d)
  /\ (forall payload d,
         PaymentPayload.asset payload = PaymentDetails.asset required ->
         PaymentPayload.payTo payload = PaymentDetails.payTo required ->
         PaymentPayload.network payload = PaymentDetails.network required ->
         decodeSignedDelegateAction nk
           (JStr (PaymentPayload.delegateB64 payload)) = Ok d ->
         receiverId (delegateAction (signedDelegate d))
         = PaymentDetails.asset required ->
         verifyPayment rt nk payload required
         = Throw (SyntaxError_BigInt
                    (PaymentDetails.amountExactAtomic required))).
Proof.
  intros Hnone. split.
  - intros payload d H. apply verifyPayment_Ok_inv in H.
    destruct H as (A & (_ & _ & _ & _ & _ & HA) & _).
    cbn [BigInt] in HA. unfold BigInt_string in HA. rewrite Hnone in HA.
    discriminate HA.
  - intros payload d Ha Hp Hn Hd Ht. unfold verifyPayment.
    rewrite Ha, Hp, Hn, !String.eqb_refl. cbn [negb].
    rewrite Hd. cbn [bind]. rewrite Ht, String.eqb_refl. cbn [negb BigInt].
    unfold BigInt_string. rewrite Hnone. reflexivity.
Qed.

(** X3 (no transfer to the seller).  For a payload that passes rules 1 to
    5, the loop ends with nothing found exactly when every action is read
    without exception and none is a transfer to [payTo]; an empty list of
    actions is the first case of it.  The payload is then rejected with
    "No transfer to seller found". *)
Theorem no_matching_transfer_is_rejected payload required d A :
  reaches_scan rt nk payload required d A ->
  (observed_amount rt required d = Ok None <->
   Forall (not_matching rt (PaymentDetails.payTo required))
     (actions (delegateAction (signedDelegate d))))
  /\ (Forall (not_matching rt (PaymentDetails.payTo required))
        (actions (delegateAction (signedDelegate d))) ->
      verifyPayment rt nk payload required
      = Throw (Error "No transfer to seller found")).
Proof.
  intros Hreach.
  assert (Hiff : observed_amount rt required d = Ok None <->
                 Forall (not_matching rt (PaymentDetails.payTo required))
                   (actions (delegateAction (signedDelegate d)))).
  { unfold observed_amount. split.
    - intros H. apply scan_actions_inv in H.
      destruct H as [[_ Hall] | (before & last & after & f & v & _ & _ & _ & _ & Hv)].
      + exact Hall.
      + discriminate Hv.
    - apply scan_actions_not_matching. }
  split; [exact Hiff |].
  intros Hall. apply Hiff in Hall.
  rewrite (verifyPayment_reaches_scan _ _ _ _ _ _ Hreach), Hall. reflexivity.
Qed.

(** X4 (arguments that are not JSON).  A transfer-type sub-action whose
    arguments [JSON.parse] rejects ends the verification with the parser's
    exception, whoever its recipient would be and whatever the actions
    before it have paid, provided none of those threw first. *)
Theorem unparsable_transfer_aborts payload required d A
  before a after found fc e :
  reaches_scan rt nk payload required d A ->
  actions (delegateAction (signedDelegate d)) = (before ++ a :: after)%list ->
  scan_actions rt (PaymentDetails.payTo required) None before = Ok found ->
  transfer_call a = Some fc ->
  JSON_parse rt (Buffer_toString_utf8 rt (args fc)) = Throw e ->
  observed_amount rt required d = Throw e
  /\ verifyPayment rt nk payload required = Throw e.
Proof.
  intros Hreach Hacts Hbefore Hfc Hparse.
  assert (Hobs : observed_amount rt required d = Throw e).
  { unfold observed_amount. rewrite Hacts, scan_actions_app, Hbefore.
    cbn [bind scan_actions]. rewrite scan_action_eq, Hfc.
    unfold recipient_of. rewrite Hparse. reflexivity. }
  split; [exact Hobs |].
  rewrite (verifyPayment_reaches_scan _ _ _ _ _ _ Hreach), Hobs. reflexivity.
Qed.

(** X5 (what [verifyPayment] reads).  The verdict is decided by the asset,
    payTo and network of the payload, the asset, payTo, network and amount
    of the requirements, and, of the decoded delegate, its receiver and the
    arguments of its transfer-type sub-actions.  Nothing else counts: not
    the scheme, the invoice id or the amount cap of the payload, not the
    sender, nonce, block height, public key or signature of the delegate,
    not the gas or deposit of a call, and no action that is not a call of
    ft_transfer or ft_transfer_call. *)
Theorem verifyPayment_footprint {Ledger' : Type} (nk' : NearKit Ledger')
  payload payload' required required' d d' :
  PaymentPayload.asset payload = PaymentPayload.asset payload' ->
  PaymentPayload.payTo payload = PaymentPayload.payTo payload' ->
  PaymentPayload.network payload = PaymentPayload.network payload' ->
  PaymentDetails.asset required = PaymentDetails.asset required' ->
  PaymentDetails.payTo required = PaymentDetails.payTo required' ->
  PaymentDetails.network required = PaymentDetails.network required' ->
  PaymentDetails.amountExactAtomic required
  = PaymentDetails.amountExactAtomic required' ->
  decodeSignedDelegateAction nk (JStr (PaymentPayload.delegateB64 payload))
  = Ok d ->
  decodeSignedDelegateAction nk' (JStr (PaymentPayload.delegateB64 payload'))
  = Ok d' ->
  receiverId (delegateAction (signedDelegate d))
  = receiverId (delegateAction (signedDelegate d')) ->
  transfer_args_of d = transfer_args_of d' ->
  verdict (verifyPayment rt nk payload required)
  = verdict (verifyPayment rt nk' payload' required').
Proof.
  intros Ha Hp Hn Hra Hrp Hrn Hram Hd Hd' Hrec Hargs.
  unfold verifyPayment.
  rewrite Ha, Hp, Hn, Hra, Hrp, Hrn, Hram.
  destruct (negb (PaymentPayload.asset payload'
                  =? PaymentDetails.asset required')%string);
    [reflexivity |].
  destruct (negb (PaymentPayload.payTo payload'
                  =? PaymentDetails.payTo required')%string);
    [reflexivity |].
  destruct (negb (PaymentPayload.network payload'
                  =? PaymentDetails.network required')%string);
    [reflexivity |].
  rewrite Hd, Hd'. cbn [bind]. rewrite Hrec.
  destruct (negb (receiverId (delegateAction (signedDelegate d'))
                  =? PaymentDetails.asset required')%string);
    [reflexivity |].
  destruct (BigInt (Number_toString rt)
              (JStr (PaymentDetails.amountExactAtomic required')))
    as [A | e]; cbn [bind]; [| reflexivity].
  rewrite (scan_actions_args _ (actions (delegateAction (signedDelegate d)))),
          (scan_actions_args _ (actions (delegateAction (signedDelegate d')))).
  unfold transfer_args_of in Hargs. rewrite Hargs.
  destruct (scan_actions rt _ _ _) as [[f |] | e]; cbn [bind];
    try reflexivity.
  destruct (negb (f =? A)); reflexivity.
Qed.

End VerifyPaymentRules.

(* ================================================================== *)
(** * The facilitator's handlers: every answer *)

Section FacilitatorAnswers.
Context {Ledger : Type}.
Variable rt : Runtime.
Variable nk : NearKit Ledger.
Variable env : Facilitator.Env.

Import Facilitator.

(** X6 (/verify, all requests).  The handler never throws and answers 200
    or 400.  It answers 200, with [valid: true] and the sender of the
    delegate, only when the body is read, both objects pass their schema and
    [verifyPayment] returns the delegate; a body that cannot be read, a body
    that is null, and every other failure give 400 with [valid: false] and
    the message of the exception. *)
Theorem verify_answers_200_only_when_verified c l :
  (exists response,
      post_verify rt nk c l = (Ok response, l)
      /\ ((status response = 200
           /\ exists req p q payload required d,
                json c = Ok req
                /\ get req "paymentPayload" = Ok p
                /\ get req "paymentDetails" = Ok q
                /\ PaymentPayload.parse p = Ok payload
                /\ PaymentDetails.parse q = Ok required
                /\ verifyPayment rt nk payload required = Ok d
                /\ body response
                   = JObj [("valid", JBool true);
                           ("sender",
                            JStr (senderId
                                    (delegateAction (signedDelegate d))))])
          \/ (status response = 400
              /\ exists error,
                   body response
                   = JObj [("valid", JBool false); ("error", JStr error)])))
  /\ (forall e,
         json c = Throw e ->
         post_verify rt nk c l
         = (Ok (c_json []
                  (JObj [("valid", JBool false);
                         ("error", JStr (error_string rt e))]) 400),
            l))
  /\ (json c = Ok JNull ->
      post_verify rt nk c l
      = (Ok (c_json []
               (JObj [("valid", JBool false);
                      ("error",
                       JStr (error_string rt
                               (TypeError_property JNull "paymentPayload")))])
               400),
         l)).
Proof.
  split; [| split].
  - unfold post_verify, ecatch, lift, eret.
    destruct (json c) as [req | e] eqn:Hreq; cbn [bind].
    2: { eexists. split; [reflexivity |]. right. split; [reflexivity |].
         eexists. reflexivity. }
    destruct (get req "paymentPayload") as [p | e] eqn:Hp; cbn [bind].
    2: { eexists. split; [reflexivity |]. right. split; [reflexivity |].
         eexists. reflexivity. }
    destruct (get req "paymentDetails") as [q | e] eqn:Hq; cbn [bind].
    2: { eexists. split; [reflexivity |]. right. split; [reflexivity |].
         eexists. reflexivity. }
    destruct (PaymentPayload.parse p) as [payload | e] eqn:Hpayload;
      cbn [bind].
    2: { eexists. split; [reflexivity |]. right. split; [reflexivity |].
         eexists. reflexivity. }
    destruct (PaymentDetails.parse q) as [required | e] eqn:Hrequired;
      cbn [bind].
    2: { eexists. split; [reflexivity |]. right. split; [reflexivity |].
         eexists. reflexivity. }
    destruct (verifyPayment rt nk payload required) as [d | e] eqn:Hd;
      cbn [bind].
    2: { eexists. split; [reflexivity |]. right. split; [reflexivity |].
         eexists. reflexivity. }
    eexists. split; [reflexivity |]. left. split; [reflexivity |].
    exists req, p, q, payload, required, d.
    repeat (split; [assumption || reflexivity |]). reflexivity.
  - intros e He. unfold post_verify, ecatch, lift, eret. rewrite He.
    reflexivity.
  - intros Hnull. unfold post_verify, ecatch, lift, eret. rewrite Hnull.
    reflexivity.
Qed.

(** X7 (/settle, once the service has started).  When the check at module
    level has passed, neither guard of [getRelayer] and [settlePayment]
    fires: for a blob that decodes, the answer is decided by the constructor
    of [Near] on NEAR_RPC, testnet, the relayer's key and RELAYER_ACCOUNT_ID,
    and by [send].  A constructor that throws is answered 400 with
    [ok: false] and its message, and nothing is sent.  Otherwise the
    delegate is sent once, signed for RELAYER_ACCOUNT_ID by the client
    constructed: what [send] returns is answered 200 with [ok: true], the
    hash of the transaction, the id of its outcome under the name blockHash,
    and its status; what [send] throws is answered 400 with [ok: false] and
    the message; the ledger is the one [send] left. *)
Theorem settle_answers_by_send c l req b d :
  startup env = Ok tt ->
  json c = Ok req ->
  get req "delegateB64" = Ok b ->
  decodeSignedDelegateAction nk b = Ok d ->
  exists id key,
    RELAYER_ACCOUNT_ID env = Some id
    /\ RELAYER_PRIVATE_KEY env = Some key
    /\ id <> "" /\ key <> ""
    /\ post_settle rt nk env c l
       = match new_Near nk
                 {| rpcUrl := NEAR_RPC env; networkId := "testnet";
                    privateKey := key; defaultSignerId := id |} with
         | Throw e =>
             (Ok (c_json []
                    (JObj [("ok", JBool false);
                           ("error", JStr (error_string rt e))]) 400),
              l)
         | Ok relayer =>
             match send nk relayer id d l with
             | (Ok result, l') =>
                 (Ok (c_json []
                        (JObj [("ok", JBool true);
                               ("txHash", JStr (transaction_hash result));
                               ("blockHash",
                                JStr (transaction_outcome_id result));
                               ("status", outcome_status result)]) 200),
                  l')
             | (Throw e, l') =>
                 (Ok (c_json []
                        (JObj [("ok", JBool false);
                               ("error", JStr (error_string rt e))]) 400),
                  l')
             end
         end.
Proof.
  intros Hstart Hreq Hb Hd. unfold startup in Hstart.
  destruct (unset (TOKEN_ACCOUNT_ID env)); [discriminate Hstart |].
  destruct (unset (SELLER_ACCOUNT_ID env)); [discriminate Hstart |].
  destruct (RELAYER_ACCOUNT_ID env) as [id |] eqn:Hid;
    cbn [unset orb] in Hstart; [| discriminate Hstart].
  destruct (id =? "")%string eqn:Hid_set; [discriminate Hstart |].
  destruct (RELAYER_PRIVATE_KEY env) as [key |] eqn:Hkey;
    cbn [unset orb] in Hstart; [| discriminate Hstart].
  destruct (key =? "")%string eqn:Hkey_set; [discriminate Hstart |].
  exists id, key.
  split; [reflexivity |]. split; [reflexivity |].
  split; [apply String.eqb_neq, Hid_set |].
  split; [apply String.eqb_neq, Hkey_set |].
  unfold post_settle, ecatch, ebind, lift, eret.
  rewrite Hreq, Hb, Hd.
  unfold settlePayment, getRelayer, ebind, lift, eret.
  rewrite Hid, Hkey, Hid_set, Hkey_set. cbn [orb].
  destruct (new_Near nk _) as [relayer | e]; [| reflexivity].
  destruct (send nk relayer id d l) as [[result | e] l']; reflexivity.
Qed.

End FacilitatorAnswers.

(* ================================================================== *)
(** * The seller: the requirements it sends, and the errors on its way *)

Section SellerEdges.
Context {World : Type}.
Variable rt : Runtime.
Variable pf : Seller.Platform World.
Variable env : Seller.Env.

Import Seller.

(** X8 (the seller's requirements pass the facilitator's schema).  Once
    the seller has started, the entry it sends as [paymentDetails] is
    accepted by the schema of the facilitator, which keeps of it the scheme,
    the network, the token as asset, the seller's account as payTo and the
    price, and drops the rest. *)
Theorem seller_requirements_pass_the_schema resource :
  startup env = Ok tt ->
  exists token seller,
    TOKEN_ACCOUNT_ID env = Some token /\ token <> ""
    /\ SELLER_ACCOUNT_ID env = Some seller /\ seller <> ""
    /\ Facilitator.PaymentDetails.parse (first_accepts rt env resource)
       = Ok {| Facilitator.PaymentDetails.scheme := "near-delegate-exact";
               Facilitator.PaymentDetails.network := NEAR_NETWORK env;
               Facilitator.PaymentDetails.asset := token;
               Facilitator.PaymentDetails.payTo := seller;
               Facilitator.PaymentDetails.amountExactAtomic :=
                 PRICE_ATOMIC env |}.
Proof.
  unfold startup. intros Hstart.
  destruct (TOKEN_ACCOUNT_ID env) as [token |] eqn:Htoken;
    cbn [unset orb] in Hstart; [| discriminate Hstart].
  destruct (token =? "")%string eqn:Htoken_set; [discriminate Hstart |].
  destruct (SELLER_ACCOUNT_ID env) as [seller |] eqn:Hseller;
    cbn [unset orb] in Hstart; [| discriminate Hstart].
  destruct (seller =? "")%string eqn:Hseller_set; [discriminate Hstart |].
  exists token, seller.
  split; [reflexivity |]. split; [apply String.eqb_neq, Htoken_set |].
  split; [reflexivity |]. split; [apply String.eqb_neq, Hseller_set |].
  unfold first_accepts, buildAccepts. rewrite Htoken, Hseller. reflexivity.
Qed.

(** X9 (what goes wrong on the way is a 402 PAYMENT_ERROR).  With a
    payment header attached: a header that does not decode to JSON is
    answered before the facilitator is contacted; a call to /verify or to
    /settle that throws, and an answer that is null, are answered with the
    message of the exception.  A /settle that cannot be reached is reported
    as PAYMENT_ERROR, not as PAYMENT_NOT_SETTLED. *)
Theorem failures_on_the_way_are_payment_errors c header w :
  x_payment c = Some header ->
  header <> "" ->
  (forall e,
      JSON_parse rt (Buffer_from_base64_toString_utf8 rt header) = Throw e ->
      get_weather rt pf env c w
      = (Ok (c_json []
               (JObj [("error", JStr "PAYMENT_ERROR");
                      ("details", JStr (error_string rt e))]) 402),
         w))
  /\ (forall payment,
         JSON_parse rt (Buffer_from_base64_toString_utf8 rt header)
         = Ok payment ->
         (forall e w1,
             fetch_json pf (facilitator_url env "/verify")
               (JObj [("paymentPayload", payment);
                      ("paymentDetails", first_accepts rt env (url c))]) w
             = (Throw e, w1) ->
             get_weather rt pf env c w
             = (Ok (c_json []
                      (JObj [("error", JStr "PAYMENT_ERROR");
                             ("details", JStr (error_string rt e))]) 402),
                w1))
         /\ (forall w1,
                fetch_json pf (facilitator_url env "/verify")
                  (JObj [("paymentPayload", payment);
                         ("paymentDetails", first_accepts rt env (url c))]) w
                = (Ok JNull, w1) ->
                get_weather rt pf env c w
                = (Ok (c_json []
                         (JObj [("error", JStr "PAYMENT_ERROR");
                                ("details",
                                 JStr (error_string rt
                                         (TypeError_property JNull "valid")))])
                         402),
                   w1))
         /\ (forall verification w1 valid delegateB64 e w2,
                fetch_json pf (facilitator_url env "/verify")
                  (JObj [("paymentPayload", payment);
                         ("paymentDetails", first_accepts rt env (url c))]) w
                = (Ok verification, w1) ->
                get verification "valid" = Ok valid ->
                ToBoolean valid = true ->
                get payment "delegateB64" = Ok delegateB64 ->
                fetch_json pf (facilitator_url env "/settle")
                  (JObj [("delegateB64", delegateB64)]) w1
                = (Throw e, w2) ->
                get_weather rt pf env c w
                = (Ok (c_json []
                         (JObj [("error", JStr "PAYMENT_ERROR");
                                ("details", JStr (error_string rt e))]) 402),
                   w2))).
Proof.
  intros Hheader Hne. apply String.eqb_neq in Hne.
  unfold get_weather. rewrite Hheader, Hne.
  unfold ecatch, paid_request, ebind, lift, eret.
  split.
  - intros e He. rewrite He. reflexivity.
  - intros payment Hpayment. rewrite Hpayment. split; [| split].
    + intros e w1 Hverify. rewrite Hverify. reflexivity.
    + intros w1 Hverify. rewrite Hverify. reflexivity.
    + intros verification w1 valid delegateB64 e w2
             Hverify Hvalid Htrue Hblob Hsettle.
      rewrite Hverify, Hvalid, Htrue. cbn [negb].
      rewrite Hblob, Hsettle. reflexivity.
Qed.

End SellerEdges.

(* ================================================================== *)
(** * The seller in front of the facilitator: end to end *)

Lemma append_inv_l (a b c : string) : (a ++ b)%string = (a ++ c)%string -> b = c.
Proof.
  induction a as [| x a IH]; cbn [append]; intros H.
  - exact H.
  - injection H as H. apply IH, H.
Qed.

Section DeploymentFacts.
Context {Ledger Aux : Type}.
Variable rt : Runtime.
Variable nk : NearKit Ledger.
Variable fenv : Facilitator.Env.
Variable senv : Seller.Env.
Variable uuid : Aux -> jsstring * Aux.
Variable now : Aux -> float * Aux.

Import Facilitator.

Lemma settle_url_is_not_verify_url :
  (Seller.facilitator_url senv "/settle"
   =? Seller.facilitator_url senv "/verify")%string = false.
Proof.
  apply String.eqb_neq. unfold Seller.facilitator_url. intros H.
  apply append_inv_l, append_inv_l in H. discriminate H.
Qed.

(** A payload that passes its schema came from an object whose
    [delegateB64] is the blob of the payload. *)
Lemma payload_parse_blob payment payload :
  PaymentPayload.parse payment = Ok payload ->
  get payment "delegateB64" = Ok (JStr (PaymentPayload.delegateB64 payload)).
Proof.
  destruct payment as [| | b | x | s | l | props]; try discriminate.
  unfold PaymentPayload.parse, z_string at 4. cbn [get].
  destruct (z_literal scheme_literal props "scheme"); [| discriminate].
  destruct (z_string props "network"); [| discriminate].
  destruct (z_string props "asset"); [| discriminate].
  destruct (z_string props "payTo"); [| discriminate].
  destruct (assoc "delegateB64" props) as [| | b | x | s | l | props'];
    try discriminate.
  destruct (z_string_optional props "invoiceId"); [| discriminate].
  destruct (z_string_optional props "maxAmountRequired"); [| discriminate].
  intros [= <-]. reflexivity.
Qed.

(** [settlePayment] either did not call [send], and threw, or returns what
    [send] did. *)
Lemma settlePayment_eq d l :
  settlePayment nk fenv d l =
  match getRelayer nk fenv, RELAYER_ACCOUNT_ID fenv with
  | Ok relayer, Some id =>
      match send nk relayer id d l with
      | (Ok result, l') =>
          (Ok {| ok := true;
                 txHash := transaction_hash result;
                 blockHash := transaction_outcome_id result;
                 settlement_status := outcome_status result |},
           l')
      | (Throw e, l') => (Throw e, l')
      end
  | Ok _, None => (Throw (Error "RELAYER_ACCOUNT_ID not set"), l)
  | Throw e, _ => (Throw e, l)
  end.
Proof.
  unfold settlePayment, ebind, lift, eret.
  destruct (getRelayer nk fenv) as [relayer | e] eqn:Hr; [| reflexivity].
  destruct (RELAYER_ACCOUNT_ID fenv) as [id |] eqn:Hid; [| reflexivity].
  unfold getRelayer in Hr. rewrite Hid in Hr.
  destruct (RELAYER_PRIVATE_KEY fenv) as [key |]; [| discriminate Hr].
  destruct (id =? "")%string; [discriminate Hr |].
  destruct (send nk relayer id d l) as [[result | e] l']; reflexivity.
Qed.

(** The deployed handler on a header that decodes: the answer is decided
    by the two schemas, [verifyPayment] and [settlePayment]. *)
Lemma deployed_paid_request_eq c header payment l a :
  Seller.x_payment c = Some header ->
  header <> "" ->
  JSON_parse rt (Buffer_from_base64_toString_utf8 rt header) = Ok payment ->
  Deployment.get_weather rt nk fenv senv uuid now c (l, a) =
  match (payload <- PaymentPayload.parse payment ;;
         required <- PaymentDetails.parse
                       (Seller.first_accepts rt senv (Seller.url c)) ;;
         verifyPayment rt nk payload required) with
  | Throw e =>
      (Ok (c_json []
             (JObj [("error", JStr "PAYMENT_INVALID");
                    ("details", JStr (error_string rt e))]) 402),
       (l, a))
  | Ok d =>
      match getRelayer nk fenv, RELAYER_ACCOUNT_ID fenv with
      | Ok relayer, Some id =>
          match send nk relayer id d l with
          | (Ok result, l') =>
              (Ok (c_json
                     [("x-payment-response",
                       Buffer_toString_base64 rt
                         (JSON_stringify rt
                            (JObj [("ok", JBool true);
                                   ("txHash", JStr (transaction_hash result));
                                   ("blockHash",
                                    JStr (transaction_outcome_id result));
                                   ("status", outcome_status result)])))]
                     (Seller.weather_report senv
                        (Seller.first_accepts rt senv (Seller.url c))
                        (JStr (transaction_hash result)))
                     200),
               (l', a))
          | (Throw e, l') =>
              (Ok (c_json []
                     (JObj [("error", JStr "PAYMENT_NOT_SETTLED");
                            ("details", JStr (error_string rt e))]) 402),
               (l', a))
          end
      | Ok _, None =>
          (Ok (c_json []
                 (JObj [("error", JStr "PAYMENT_NOT_SETTLED");
                        ("details", JStr "RELAYER_ACCOUNT_ID not set")]) 402),
           (l, a))
      | Throw e, _ =>
          (Ok (c_json []
                 (JObj [("error", JStr "PAYMENT_NOT_SETTLED");
                        ("details", JStr (error_string rt e))]) 402),
           (l, a))
      end
  end.
Proof.
  intros Hheader Hne Hpayment. apply String.eqb_neq in Hne.
  unfold Deployment.get_weather, Seller.get_weather. rewrite Hheader, Hne.
  unfold ecatch, Seller.paid_request, ebind, lift, eret.
  rewrite Hpayment.
  cbn [Seller.fetch_json Deployment.platform fst snd].
  unfold Deployment.serve at 1. rewrite String.eqb_refl.
  rewrite (post_verify_eq rt nk
             {| json :=
                  Ok (JObj [("paymentPayload", payment);
                            ("paymentDetails",
                             Seller.first_accepts rt senv (Seller.url c))]) |}
             l
             (JObj [("paymentPayload", payment);
                    ("paymentDetails",
                     Seller.first_accepts rt senv (Seller.url c))])
             payment
             (Seller.first_accepts rt senv (Seller.url c))
             eq_refl eq_refl eq_refl).
  destruct (PaymentPayload.parse payment) as [payload | e] eqn:Hpayload;
    cbn [bind try_catch]; [| reflexivity].
  destruct (PaymentDetails.parse _) as [required | e];
    cbn [bind try_catch]; [| reflexivity].
  destruct (verifyPayment rt nk payload required) as [d | e] eqn:Hd;
    cbn [bind try_catch]; [| reflexivity].
  cbn [body c_json get assoc String.eqb Ascii.eqb Bool.eqb ToBoolean negb].
  rewrite (payload_parse_blob _ _ Hpayload).
  unfold Deployment.serve. rewrite settle_url_is_not_verify_url.
  rewrite String.eqb_refl.
  unfold post_settle, ecatch, ebind, lift, eret.
  cbn [json get assoc String.eqb Ascii.eqb Bool.eqb fst snd].
  apply verifyPayment_Ok_inv in Hd.
  destruct Hd as (A & (_ & _ & _ & Hdecode & _) & _). rewrite Hdecode.
  rewrite settlePayment_eq.
  destruct (getRelayer nk fenv) as [relayer | e]; [| reflexivity].
  destruct (RELAYER_ACCOUNT_ID fenv) as [id |]; [| reflexivity].
  destruct (send nk relayer id d l) as [[result | e] l']; reflexivity.
Qed.

(** The deployed handler on a request without payment answers 402. *)
Lemma deployed_challenge_status c l a response w' :
  Seller.x_payment c = None \/ Seller.x_payment c = Some "" ->
  Deployment.get_weather rt nk fenv senv uuid now c (l, a) = (Ok response, w') ->
  status response = 402 /\ fst w' = l.
Proof.
  intros Hnone H. unfold Deployment.get_weather, Seller.get_weather in H.
  destruct Hnone as [Hnone | Hnone]; rewrite Hnone in H;
    cbn [String.eqb] in H; rewrite challenge_eq in H;
    injection H as <- <-; cbn [Seller.randomUUID Seller.Date_now
                                 Deployment.platform fst snd];
    destruct (uuid a) as [id a1]; cbn [fst snd];
    destruct (now a1) as [t a2]; split; reflexivity.
Qed.

(** X10 (end to end, by cases).  With a header that decodes to a payment
    that passes its schema, requirements that pass theirs and a relayer
    that [getRelayer] returns, the answer of the seller is decided by [verifyPayment] on the
    seller's own requirements and by [send]: an exception of
    [verifyPayment] is a 402 PAYMENT_INVALID with its message and the ledger
    untouched; an exception of [send] is a 402 PAYMENT_NOT_SETTLED with its
    message; a result of [send] is a 200 whose receipt header and [paid.tx]
    carry the hash of the transaction.  In the last two cases the ledger is
    the one [send] left. *)
Theorem deployed_outcomes c header payment payload required relayer id l a :
  Seller.x_payment c = Some header ->
  header <> "" ->
  JSON_parse rt (Buffer_from_base64_toString_utf8 rt header) = Ok payment ->
  PaymentPayload.parse payment = Ok payload ->
  PaymentDetails.parse (Seller.first_accepts rt senv (Seller.url c))
  = Ok required ->
  getRelayer nk fenv = Ok relayer ->
  RELAYER_ACCOUNT_ID fenv = Some id ->
  (forall e,
      verifyPayment rt nk payload required = Throw e ->
      Deployment.get_weather rt nk fenv senv uuid now c (l, a)
      = (Ok (c_json []
               (JObj [("error", JStr "PAYMENT_INVALID");
                      ("details", JStr (error_string rt e))]) 402),
         (l, a)))
  /\ (forall d e l',
         verifyPayment rt nk payload required = Ok d ->
         send nk relayer id d l = (Throw e, l') ->
         Deployment.get_weather rt nk fenv senv uuid now c (l, a)
         = (Ok (c_json []
                  (JObj [("error", JStr "PAYMENT_NOT_SETTLED");
                         ("details", JStr (error_string rt e))]) 402),
            (l', a)))
  /\ (forall d result l',
         verifyPayment rt nk payload required = Ok d ->
         send nk relayer id d l = (Ok result, l') ->
         Deployment.get_weather rt nk fenv senv uuid now c (l, a)
         = (Ok (c_json
                  [("x-payment-response",
                    Buffer_toString_base64 rt
                      (JSON_stringify rt
                         (JObj [("ok", JBool true);
                                ("txHash", JStr (transaction_hash result));
                                ("blockHash",
                                 JStr (transaction_outcome_id result));
                                ("status", outcome_status result)])))]
                  (Seller.weather_report senv
                     (Seller.first_accepts rt senv (Seller.url c))
                     (JStr (transaction_hash result)))
                  200),
            (l', a))).
Proof.
  intros Hheader Hne Hpayment Hpayload Hrequired Hrelayer Hid.
  rewrite (deployed_paid_request_eq c header payment l a
             Hheader Hne Hpayment).
  rewrite Hpayload, Hrequired. cbn [bind]. split; [| split].
  - intros e He. rewrite He. reflexivity.
  - intros d e l' Hd Hsend. rewrite Hd, Hrelayer, Hid, Hsend. reflexivity.
  - intros d result l' Hd Hsend. rewrite Hd, Hrelayer, Hid, Hsend.
    reflexivity.
Qed.

(** X11 (no resource without settlement).  Whenever the deployed seller
    answers 200, the request carried a header that decodes to a payload
    which [verifyPayment] accepted against the requirements the seller
    builds for the URL, and the relayer's [send] of that delegate returned a
    result; the ledger is the one that [send] left, and [paid.tx] is the
    hash of its transaction. *)
Theorem no_resource_without_settlement c l a response w' :
  Deployment.get_weather rt nk fenv senv uuid now c (l, a) = (Ok response, w') ->
  status response = 200 ->
  exists header payment payload required d relayer id result,
    Seller.x_payment c = Some header
    /\ JSON_parse rt (Buffer_from_base64_toString_utf8 rt header) = Ok payment
    /\ PaymentPayload.parse payment = Ok payload
    /\ PaymentDetails.parse (Seller.first_accepts rt senv (Seller.url c))
       = Ok required
    /\ verifyPayment rt nk payload required = Ok d
    /\ getRelayer nk fenv = Ok relayer
    /\ RELAYER_ACCOUNT_ID fenv = Some id
    /\ send nk relayer id d l = (Ok result, fst w')
    /\ snd w' = a
    /\ get_optional (get_optional (body response) "paid") "tx"
       = JStr (transaction_hash result).
Proof.
  intros H Hstatus.
  destruct (Seller.x_payment c) as [header |] eqn:Hheader.
  2: { apply deployed_challenge_status in H; [| left; exact Hheader].
       destruct H as [H _]. rewrite H in Hstatus. discriminate Hstatus. }
  destruct (String.eqb_spec header "") as [-> | Hne].
  { apply deployed_challenge_status in H; [| right; exact Hheader].
    destruct H as [H _]. rewrite H in Hstatus. discriminate Hstatus. }
  destruct (JSON_parse rt (Buffer_from_base64_toString_utf8 rt header))
    as [payment | e] eqn:Hpayment.
  2: { unfold Deployment.get_weather, Seller.get_weather in H.
       rewrite Hheader in H. apply String.eqb_neq in Hne. rewrite Hne in H.
       unfold ecatch, Seller.paid_request, ebind, lift, eret in H.
       rewrite Hpayment in H. injection H as <- <-. discriminate Hstatus. }
  rewrite (deployed_paid_request_eq c header payment l a
             Hheader Hne Hpayment) in H.
  destruct (PaymentPayload.parse payment) as [payload | e] eqn:Hpayload;
    cbn [bind] in H; [| injection H as <- <-; discriminate Hstatus].
  destruct (PaymentDetails.parse _) as [required | e] eqn:Hrequired;
    cbn [bind] in H; [| injection H as <- <-; discriminate Hstatus].
  destruct (verifyPayment rt nk payload required) as [d | e] eqn:Hd;
    [| injection H as <- <-; discriminate Hstatus].
  destruct (getRelayer nk fenv) as [relayer | e] eqn:Hrelayer;
    [| injection H as <- <-; discriminate Hstatus].
  destruct (RELAYER_ACCOUNT_ID fenv) as [id |] eqn:Hid;
    [| injection H as <- <-; discriminate Hstatus].
  destruct (send nk relayer id d l) as [[result | e] l'] eqn:Hsend;
    [| injection H as <- <-; discriminate Hstatus].
  injection H as <- <-.
  exists header, payment, payload, required, d, relayer, id, result.
  repeat (split; [reflexivity || assumption |]). reflexivity.
Qed.

(** X12 (nothing unverified reaches the ledger).  Whatever the request,
    the deployed seller leaves the ledger as it was, or as one [send] left
    it, of a delegate that [verifyPayment] accepted against the requirements
    the seller builds for the URL. *)
Theorem ledger_changes_by_one_verified_send c l a r w' :
  Deployment.get_weather rt nk fenv senv uuid now c (l, a) = (r, w') ->
  fst w' = l
  \/ exists payload required d relayer id,
       PaymentDetails.parse (Seller.first_accepts rt senv (Seller.url c))
       = Ok required
       /\ verifyPayment rt nk payload required = Ok d
       /\ getRelayer nk fenv = Ok relayer
       /\ RELAYER_ACCOUNT_ID fenv = Some id
       /\ fst w' = snd (send nk relayer id d l).
Proof.
  intros H.
  destruct (Seller.x_payment c) as [header |] eqn:Hheader.
  2: { left. unfold Deployment.get_weather, Seller.get_weather in H.
       rewrite Hheader, challenge_eq in H. injection H as <- <-.
       cbn [Seller.randomUUID Seller.Date_now Deployment.platform fst snd].
       destruct (uuid a) as [i a1]; cbn [fst snd].
       destruct (now a1) as [t a2]; reflexivity. }
  destruct (String.eqb_spec header "") as [-> | Hne].
  { left. unfold Deployment.get_weather, Seller.get_weather in H.
    rewrite Hheader in H. cbn [String.eqb] in H.
    rewrite challenge_eq in H. injection H as <- <-.
    cbn [Seller.randomUUID Seller.Date_now Deployment.platform fst snd].
    destruct (uuid a) as [i a1]; cbn [fst snd].
    destruct (now a1) as [t a2]; reflexivity. }
  destruct (JSON_parse rt (Buffer_from_base64_toString_utf8 rt header))
    as [payment | e] eqn:Hpayment.
  2: { left. unfold Deployment.get_weather, Seller.get_weather in H.
       rewrite Hheader in H. apply String.eqb_neq in Hne. rewrite Hne in H.
       unfold ecatch, Seller.paid_request, ebind, lift, eret in H.
       rewrite Hpayment in H. injection H as <- <-. reflexivity. }
  rewrite (deployed_paid_request_eq c header payment l a
             Hheader Hne Hpayment) in H.
  destruct (PaymentPayload.parse payment) as [payload | e] eqn:Hpayload;
    cbn [bind] in H; [| left; injection H as <- <-; reflexivity].
  destruct (PaymentDetails.parse _) as [required | e] eqn:Hrequired;
    cbn [bind] in H; [| left; injection H as <- <-; reflexivity].
  destruct (verifyPayment rt nk payload required) as [d | e] eqn:Hd;
    [| left; injection H as <- <-; reflexivity].
  destruct (getRelayer nk fenv) as [relayer | e] eqn:Hrelayer;
    [| left; injection H as <- <-; reflexivity].
  destruct (RELAYER_ACCOUNT_ID fenv) as [id |] eqn:Hid;
    [| left; injection H as <- <-; reflexivity].
  right. exists payload, required, d, relayer, id.
  repeat (split; [reflexivity || assumption |]).
  destruct (send nk relayer id d l) as [[result | e] l'];
    injection H as <- <-; reflexivity.
Qed.

End DeploymentFacts.

(* ================================================================== *)
(** * The buyer against the facilitator *)

Section BuyerFacts.
Context {Ledger : Type}.
Variable rt : Runtime.
Variable nk : NearKit Ledger.
Variable env : Buyer.Env.

Import Facilitator.

(** Requirements that pass their schema are an object that holds them. *)
Lemma details_parse_inv paymentReq required :
  PaymentDetails.parse paymentReq = Ok required ->
  exists props,
    paymentReq = JObj props
    /\ assoc "network" props = JStr (PaymentDetails.network required)
    /\ assoc "asset" props = JStr (PaymentDetails.asset required)
    /\ assoc "payTo" props = JStr (PaymentDetails.payTo required)
    /\ assoc "amountExactAtomic" props
       = JStr (PaymentDetails.amountExactAtomic required).
Proof.
  destruct paymentReq as [| | b | x | s | l | props]; try discriminate.
  unfold PaymentDetails.parse, z_string.
  destruct (z_literal scheme_literal props "scheme"); [| discriminate].
  destruct (assoc "network" props) eqn:Hn; try discriminate.
  destruct (assoc "asset" props) eqn:Ha; try discriminate.
  destruct (assoc "payTo" props) eqn:Hp; try discriminate.
  destruct (assoc "amountExactAtomic" props) eqn:Hx; try discriminate.
  intros [= <-]. exists props. repeat split; assumption.
Qed.

(** The payment object of the buyer, for requirements that pass their
    schema and an invoice whose id is a string. *)
Lemma buyer_payment_eq paymentReq invoice blob required id :
  PaymentDetails.parse paymentReq = Ok required ->
  get invoice "id" = Ok (JStr id) ->
  Buyer.payment paymentReq invoice (JStr blob)
  = Ok (JObj [("scheme", JStr "near-delegate-exact");
              ("network", JStr (PaymentDetails.network required));
              ("asset", JStr (PaymentDetails.asset required));
              ("payTo", JStr (PaymentDetails.payTo required));
              ("delegateB64", JStr blob);
              ("invoiceId", JStr id)]).
Proof.
  intros Hrequired Hid. apply details_parse_inv in Hrequired.
  destruct Hrequired as (props & -> & Hn & Ha & Hp & _).
  unfold Buyer.payment. cbn [get bind]. rewrite Hn, Ha, Hp, Hid.
  reflexivity.
Qed.

(** The loop of [verifyPayment] on the one transfer the buyer signs. *)
Lemma buyer_transfer_observed paymentReq invoice required targs fc seller A :
  Buyer.SELLER_ACCOUNT_ID env = Some seller ->
  seller <> "" ->
  PaymentDetails.parse paymentReq = Ok required ->
  StringToBigInt (PaymentDetails.amountExactAtomic required) = Some A ->
  Buyer.transfer_arguments rt env paymentReq invoice = Ok targs ->
  methodName fc = "ft_transfer" ->
  JSON_parse rt (Buffer_toString_utf8 rt (args fc)) = Ok targs ->
  scan_actions rt (PaymentDetails.payTo required) None [FunctionCallAction fc]
  = Ok (if (seller =? PaymentDetails.payTo required)%string
        then Some A else None).
Proof.
  intros Hseller Hset Hrequired HA Htargs Hmethod Hparse.
  apply details_parse_inv in Hrequired.
  destruct Hrequired as (props & -> & _ & _ & _ & Hamount).
  unfold Buyer.transfer_arguments in Htargs. cbn [get bind] in Htargs.
  rewrite Hamount, Hseller in Htargs.
  destruct (get invoice "id") as [id |]; cbn [bind] in Htargs;
    [| discriminate Htargs].
  destruct (ToString (Number_toString rt) id) as [text |];
    cbn [bind] in Htargs; [| discriminate Htargs].
  injection Htargs as <-.
  cbn [scan_actions]. rewrite scan_action_eq.
  cbn [transfer_call]. rewrite Hmethod. cbn [String.eqb Ascii.eqb Bool.eqb orb].
  unfold recipient_of, amount_of. rewrite Hparse.
  cbn [bind get assoc String.eqb Ascii.eqb Bool.eqb
       Seller.AcceptsEntry.json_of_envvar ToBoolean].
  apply String.eqb_neq in Hset. rewrite Hset.
  cbn [negb bind strict_eq_string].
  destruct (seller =? PaymentDetails.payTo required)%string;
    cbn [bind]; [| reflexivity].
  unfold or_else. cbn [ToBoolean].
  destruct (String.eqb_spec (PaymentDetails.amountExactAtomic required) "")
    as [Hempty | Hfull]; cbn [negb BigInt].
  - rewrite Hempty in HA. injection HA as <-. reflexivity.
  - unfold BigInt_string. rewrite HA. reflexivity.
Qed.

(** X13 (the buyer's payment passes the schema).  For an entry of
    [accepts] that passes the schema of the requirements and an invoice
    whose id is a string, the payment object of the buyer passes the schema
    of the payload, and the payload echoes the network, asset and payTo of
    the entry: against that entry, the three field checks of
    [verifyPayment] pass. *)
Theorem buyer_payment_passes_the_schema paymentReq invoice blob required id :
  PaymentDetails.parse paymentReq = Ok required ->
  get invoice "id" = Ok (JStr id) ->
  exists p,
    Buyer.payment paymentReq invoice (JStr blob) = Ok p
    /\ PaymentPayload.parse p
       = Ok {| PaymentPayload.scheme := "near-delegate-exact";
               PaymentPayload.network := PaymentDetails.network required;
               PaymentPayload.asset := PaymentDetails.asset required;
               PaymentPayload.payTo := PaymentDetails.payTo required;
               PaymentPayload.delegateB64 := blob;
               PaymentPayload.invoiceId := Some id;
               PaymentPayload.maxAmountRequired := None |}.
Proof.
  intros Hrequired Hid. eexists. split.
  - apply (buyer_payment_eq _ _ _ _ _ Hrequired Hid).
  - reflexivity.
Qed.

(** X14 (the authorization the buyer signs).  The buyer signs one
    ft_transfer on TOKEN_ACCOUNT_ID to SELLER_ACCOUNT_ID, both from its own
    environment, for the amount of the entry.  When the blob decodes to what
    was signed and the amount of the entry is an integer,
    [verifyPayment] accepts the payment against the entry if the buyer's
    token and seller are the entry's asset and payTo; it answers "Delegate
    must target token contract" if the token differs, and "No transfer to
    seller found" if the seller differs. *)
Theorem honest_buyer_verifies
  paymentReq invoice blob required id targs p payload d fc token seller A :
  Buyer.TOKEN_ACCOUNT_ID env = Some token ->
  Buyer.SELLER_ACCOUNT_ID env = Some seller ->
  seller <> "" ->
  PaymentDetails.parse paymentReq = Ok required ->
  StringToBigInt (PaymentDetails.amountExactAtomic required) = Some A ->
  get invoice "id" = Ok (JStr id) ->
  Buyer.transfer_arguments rt env paymentReq invoice = Ok targs ->
  Buyer.payment paymentReq invoice (JStr blob) = Ok p ->
  PaymentPayload.parse p = Ok payload ->
  decodeSignedDelegateAction nk (JStr blob) = Ok d ->
  receiverId (delegateAction (signedDelegate d)) = token ->
  actions (delegateAction (signedDelegate d)) = [FunctionCallAction fc] ->
  methodName fc = "ft_transfer" ->
  JSON_parse rt (Buffer_toString_utf8 rt (args fc)) = Ok targs ->
  (token = PaymentDetails.asset required ->
   seller = PaymentDetails.payTo required ->
   verifyPayment rt nk payload required = Ok d)
  /\ (token <> PaymentDetails.asset required ->
      verifyPayment rt nk payload required
      = Throw (Error "Delegate must target token contract"))
  /\ (token = PaymentDetails.asset required ->
      seller <> PaymentDetails.payTo required ->
      verifyPayment rt nk payload required
      = Throw (Error "No transfer to seller found")).
Proof.
  intros Htoken Hseller Hset Hrequired HA Hid Htargs Hp Hpayload
         Hd Hreceiver Hactions Hmethod Hparse.
  rewrite (buyer_payment_eq _ _ _ _ _ Hrequired Hid) in Hp.
  injection Hp as <-. injection Hpayload as <-.
  pose proof (buyer_transfer_observed _ _ _ _ _ _ _
                Hseller Hset Hrequired HA Htargs Hmethod Hparse) as Hscan.
  unfold verifyPayment.
  cbn [PaymentPayload.asset PaymentPayload.payTo PaymentPayload.network
       PaymentPayload.delegateB64].
  rewrite !String.eqb_refl. cbn [negb]. rewrite Hd. cbn [bind].
  rewrite Hreceiver, Hactions. split; [| split].
  - intros Hasset Hpay. rewrite Hasset, String.eqb_refl. cbn [negb BigInt].
    unfold BigInt_string. rewrite HA. cbn [bind]. rewrite Hscan.
    rewrite Hpay, String.eqb_refl. cbn [bind]. rewrite Z.eqb_refl.
    reflexivity.
  - intros Hasset. apply String.eqb_neq in Hasset. rewrite Hasset.
    reflexivity.
  - intros Hasset Hpay. rewrite Hasset, String.eqb_refl. cbn [negb BigInt].
    unfold BigInt_string. rewrite HA. cbn [bind]. rewrite Hscan.
    apply String.eqb_neq in Hpay. rewrite Hpay. reflexivity.
Qed.

End BuyerFacts.

(* ================================================================== *)
(** * A whole run: buyer, seller, facilitator, ledger *)

Section WholeRun.
Context {Ledger Aux : Type}.
Variable rt : Runtime.
Variable nk : NearKit Ledger.
Variable fenv : Facilitator.Env.
Variable senv : Seller.Env.
Variable benv : Buyer.Env.
Variable uuid : Aux -> jsstring * Aux.
Variable now : Aux -> float * Aux.

Import Facilitator.

(** The payload of a buyer whose token and seller are those of the entry
    verifies against the entry. *)
Lemma buyer_payload_verifies
  paymentReq invoice blob required id targs d fc A :
  Buyer.SELLER_ACCOUNT_ID benv = Some (PaymentDetails.payTo required) ->
  PaymentDetails.payTo required <> "" ->
  PaymentDetails.parse paymentReq = Ok required ->
  StringToBigInt (PaymentDetails.amountExactAtomic required) = Some A ->
  Buyer.transfer_arguments rt benv paymentReq invoice = Ok targs ->
  decodeSignedDelegateAction nk (JStr blob) = Ok d ->
  receiverId (delegateAction (signedDelegate d))
  = PaymentDetails.asset required ->
  actions (delegateAction (signedDelegate d)) = [FunctionCallAction fc] ->
  methodName fc = "ft_transfer" ->
  JSON_parse rt (Buffer_toString_utf8 rt (args fc)) = Ok targs ->
  verifyPayment rt nk
    {| PaymentPayload.scheme := "near-delegate-exact";
       PaymentPayload.network := PaymentDetails.network required;
       PaymentPayload.asset := PaymentDetails.asset required;
       PaymentPayload.payTo := PaymentDetails.payTo required;
       PaymentPayload.delegateB64 := blob;
       PaymentPayload.invoiceId := Some id;
       PaymentPayload.maxAmountRequired := None |}
    required
  = Ok d.
Proof.
  intros Hseller Hset Hrequired HA Htargs Hd Hreceiver Hactions Hmethod Hparse.
  pose proof (buyer_transfer_observed rt benv _ _ _ _ _ _ _
                Hseller Hset Hrequired HA Htargs Hmethod Hparse) as Hscan.
  rewrite String.eqb_refl in Hscan.
  unfold verifyPayment.
  cbn [PaymentPayload.asset PaymentPayload.payTo PaymentPayload.network
       PaymentPayload.delegateB64].
  rewrite !String.eqb_refl. cbn [negb]. rewrite Hd. cbn [bind].
  rewrite Hreceiver, Hactions, String.eqb_refl. cbn [negb BigInt].
  unfold BigInt_string. rewrite HA. cbn [bind]. rewrite Hscan. cbn [bind].
  rewrite Z.eqb_refl. reflexivity.
Qed.

(** X15 (a whole run).  A buyer whose token and seller are those of the
    seller answers the 402 for a URL with the payment it builds from the
    entry and the invoice.  When the header decodes to the payment at the
    seller, the blob decodes at the facilitator to the one ft_transfer that
    was signed, the price is an integer and [getRelayer] returns the
    relayer, the second request is answered by what [send] does with that delegate: 200
    with the hash of the transaction when it returns, 402
    PAYMENT_NOT_SETTLED with its message when it throws, and the ledger is
    the one [send] left. *)
Theorem honest_run_is_settled
  u invoice blob required id targs p d fc relayer signer A l a :
  PaymentDetails.parse (Seller.first_accepts rt senv u) = Ok required ->
  Buyer.TOKEN_ACCOUNT_ID benv = Some (PaymentDetails.asset required) ->
  Buyer.SELLER_ACCOUNT_ID benv = Some (PaymentDetails.payTo required) ->
  PaymentDetails.payTo required <> "" ->
  StringToBigInt (PaymentDetails.amountExactAtomic required) = Some A ->
  get invoice "id" = Ok (JStr id) ->
  Buyer.transfer_arguments rt benv (Seller.first_accepts rt senv u) invoice
  = Ok targs ->
  Buyer.payment (Seller.first_accepts rt senv u) invoice (JStr blob) = Ok p ->
  Buyer.x_payment rt p <> "" ->
  JSON_parse rt
    (Buffer_from_base64_toString_utf8 rt (Buyer.x_payment rt p)) = Ok p ->
  decodeSignedDelegateAction nk (JStr blob) = Ok d ->
  receiverId (delegateAction (signedDelegate d))
  = PaymentDetails.asset required ->
  actions (delegateAction (signedDelegate d)) = [FunctionCallAction fc] ->
  methodName fc = "ft_transfer" ->
  JSON_parse rt (Buffer_toString_utf8 rt (args fc)) = Ok targs ->
  getRelayer nk fenv = Ok relayer ->
  RELAYER_ACCOUNT_ID fenv = Some signer ->
  Deployment.get_weather rt nk fenv senv uuid now
    {| Seller.url := u; Seller.x_payment := Some (Buyer.x_payment rt p) |}
    (l, a)
  = match send nk relayer signer d l with
    | (Ok result, l') =>
        (Ok (c_json
               [("x-payment-response",
                 Buffer_toString_base64 rt
                   (JSON_stringify rt
                      (JObj [("ok", JBool true);
                             ("txHash", JStr (transaction_hash result));
                             ("blockHash",
                              JStr (transaction_outcome_id result));
                             ("status", outcome_status result)])))]
               (Seller.weather_report senv (Seller.first_accepts rt senv u)
                  (JStr (transaction_hash result)))
               200),
         (l', a))
    | (Throw e, l') =>
        (Ok (c_json []
               (JObj [("error", JStr "PAYMENT_NOT_SETTLED");
                      ("details", JStr (error_string rt e))]) 402),
         (l', a))
    end.
Proof.
  intros Hrequired Htoken Hseller Hset HA Hid Htargs Hp Hheader Hround
         Hd Hreceiver Hactions Hmethod Hparse Hrelayer Hsigner.
  rewrite (deployed_paid_request_eq rt nk fenv senv uuid now
             {| Seller.url := u;
                Seller.x_payment := Some (Buyer.x_payment rt p) |}
             (Buyer.x_payment rt p) p l a eq_refl Hheader Hround).
  cbn [Seller.url]. rewrite Hrequired.
  rewrite (buyer_payment_eq _ _ _ _ _ Hrequired Hid) in Hp.
  injection Hp as <-.
  change (PaymentPayload.parse _)
    with (Ok {| PaymentPayload.scheme := "near-delegate-exact";
                PaymentPayload.network := PaymentDetails.network required;
                PaymentPayload.asset := PaymentDetails.asset required;
                PaymentPayload.payTo := PaymentDetails.payTo required;
                PaymentPayload.delegateB64 := blob;
                PaymentPayload.invoiceId := Some id;
                PaymentPayload.maxAmountRequired := None |}).
  cbn [bind].
  rewrite (buyer_payload_verifies _ invoice blob required id targs d fc A
             Hseller Hset Hrequired HA Htargs Hd Hreceiver Hactions Hmethod
             Hparse).
  rewrite Hrelayer, Hsigner. reflexivity.
Qed.

End WholeRun.

(* ================================================================== *)
(** * The same header, twice *)

Section Replay.
Context {Ledger Aux : Type}.
Variable rt : Runtime.
Variable nk : NearKit Ledger.
Variable fenv : Facilitator.Env.
Variable senv : Seller.Env.
Variable uuid : Aux -> jsstring * Aux.
Variable now : Aux -> float * Aux.

Import Facilitator.

(** X16 (nothing is remembered between requests).  A header whose payment
    verifies is sent to the ledger each time it is presented, by the
    relayer that [getRelayer] returns: after two
    requests with it, the ledger is the one that two calls of [send] on the
    same delegate left, the second on what the first left.  Neither the
    seller nor the facilitator keeps track of invoices or of delegates
    already settled; a second settlement is refused only if [send]
    refuses it. *)
Theorem a_header_presented_twice_is_sent_twice
  c header payment payload required d relayer id l a r1 w1 r2 w2 :
  Seller.x_payment c = Some header ->
  header <> "" ->
  JSON_parse rt (Buffer_from_base64_toString_utf8 rt header) = Ok payment ->
  PaymentPayload.parse payment = Ok payload ->
  PaymentDetails.parse (Seller.first_accepts rt senv (Seller.url c))
  = Ok required ->
  verifyPayment rt nk payload required = Ok d ->
  getRelayer nk fenv = Ok relayer ->
  RELAYER_ACCOUNT_ID fenv = Some id ->
  Deployment.get_weather rt nk fenv senv uuid now c (l, a) = (r1, w1) ->
  Deployment.get_weather rt nk fenv senv uuid now c w1 = (r2, w2) ->
  fst w1 = snd (send nk relayer id d l)
  /\ fst w2 = snd (send nk relayer id d (snd (send nk relayer id d l)))
  /\ snd w2 = a.
Proof.
  intros Hheader Hne Hpayment Hpayload Hrequired Hd Hrelayer Hid Hfirst Hsecond.
  assert (Hrun : forall l0,
             Deployment.get_weather rt nk fenv senv uuid now c (l0, a)
             = (fst (Deployment.get_weather rt nk fenv senv uuid now c (l0, a)),
                (snd (send nk relayer id d l0), a))).
  { intros l0.
    rewrite (deployed_paid_request_eq rt nk fenv senv uuid now
               c header payment l0 a Hheader Hne Hpayment).
    rewrite Hpayload, Hrequired. cbn [bind]. rewrite Hd, Hrelayer, Hid.
    destruct (send nk relayer id d l0) as [[result | e] l']; reflexivity. }
  rewrite Hrun in Hfirst. injection Hfirst as _ <-.
  cbn [fst snd] in Hsecond |- *.
  rewrite Hrun in Hsecond. injection Hsecond as _ <-.
  cbn [fst snd]. repeat split.
Qed.

End Replay.

(* ================================================================== *)
(** * The rules on the concrete scenario, continued *)

Module MoreScenario.
Import Facilitator Examples MoreExamples.

(** The transfer of 1000 to the seller on another contract is rejected,
    here against requirements whose amount is no integer. *)
Lemma wrong_target_is_rejected_witness :
  verifyPayment runtime MoreExamples.near_kit
    (payload "WrongTarget") (requirements "abc")
  = Throw (Error "Delegate must target token contract").
Proof.
  apply (wrong_target_is_rejected runtime MoreExamples.near_kit
           (payload "WrongTarget") (requirements "abc") wrong_target).
  - reflexivity.
  - reflexivity.
  - reflexivity.
  - reflexivity.
  - discriminate.
Defined.

(** Against a price of "1.5", the authorization of 1000 fails with the
    SyntaxError of [BigInt]. *)
Lemma unparsable_requirement_fails_every_payment_witness :
  verifyPayment runtime Examples.near_kit
    (payload "Pays1000") (requirements "1.5") <> Ok pays_1000
  /\ verifyPayment runtime Examples.near_kit
       (payload "Pays1000") (requirements "1.5")
     = Throw (SyntaxError_BigInt "1.5").
Proof.
  destruct (unparsable_requirement_fails_every_payment runtime
              Examples.near_kit (requirements "1.5") eq_refl)
    as [Hnever Hexn].
  split.
  - apply Hnever.
  - apply (Hexn (payload "Pays1000") pays_1000); reflexivity.
Defined.

(** The authorization of 1000 to another account. *)
Lemma no_matching_transfer_is_rejected_witness :
  observed_amount runtime (requirements "1000") pays_other = Ok None
  /\ verifyPayment runtime Examples.near_kit
       (payload "PaysOther") (requirements "1000")
     = Throw (Error "No transfer to seller found").
Proof.
  assert (Hall : Forall (not_matching runtime "seller")
                   (actions (delegateAction (signedDelegate pays_other)))).
  { constructor; [| constructor]. right.
    eexists. exists (JStr "other").
    split; [reflexivity |]. split; [reflexivity | discriminate]. }
  destruct (no_matching_transfer_is_rejected runtime Examples.near_kit
              (payload "PaysOther") (requirements "1000") pays_other 1000)
    as [Hiff Hreject].
  { split; [reflexivity |]. split; [reflexivity |]. split; [reflexivity |].
    split; [reflexivity |]. split; reflexivity. }
  split.
  - apply Hiff, Hall.
  - apply Hreject, Hall.
Defined.

(** The transfer of 1000 to the seller followed by a call whose arguments
    are no JSON. *)
Lemma unparsable_transfer_aborts_witness :
  observed_amount runtime (requirements "1000") then_garbage
  = Throw (SyntaxError_JSON "not json")
  /\ verifyPayment runtime MoreExamples.near_kit
       (payload "ThenGarbage") (requirements "1000")
     = Throw (SyntaxError_JSON "not json").
Proof.
  apply (unparsable_transfer_aborts runtime MoreExamples.near_kit
           (payload "ThenGarbage") (requirements "1000") then_garbage 1000
           [ft_transfer (transfer_args "seller" "1000")]
           (ft_transfer "not json") [] (Some 1000)
           {| methodName := "ft_transfer"; args := "not json";
              gas := 30000000000000; deposit := 1 |}
           (SyntaxError_JSON "not json")).
  - split; [reflexivity |]. split; [reflexivity |]. split; [reflexivity |].
    split; [reflexivity |]. split; reflexivity.
  - reflexivity.
  - reflexivity.
  - reflexivity.
  - reflexivity.
Defined.

(** A transfer to the seller without amount, followed by a call whose
    arguments are no JSON: the loop throws on the second action, and the
    observed amount of the first is not compared, against "0" or any other
    requirement. *)
Lemma missing_amount_before_garbage :
  verifyPayment runtime MoreExamples.near_kit
    (payload "NoAmountThenGarbage") (requirements "0")
  = Throw (SyntaxError_JSON "not json")
  /\ verifyPayment runtime MoreExamples.near_kit
       (payload "NoAmountThenGarbage") (requirements "1000")
     = Throw (SyntaxError_JSON "not json").
Proof.
  split; reflexivity.
Qed.

(** The authorization of the scenario, and the same transfer dressed up:
    another sender, nonce, key and signature, a call of ft_transfer_call
    with other gas and deposit, other actions around it, a payload without
    invoice id. *)
Lemma verifyPayment_footprint_witness :
  verdict (verifyPayment runtime Examples.near_kit
             (payload "Pays1000") (requirements "1000"))
  = verdict (verifyPayment runtime MoreExamples.near_kit
               dressed_payload (requirements "1000")).
Proof.
  apply (verifyPayment_footprint runtime Examples.near_kit
           MoreExamples.near_kit
           (payload "Pays1000") dressed_payload
           (requirements "1000") (requirements "1000")
           pays_1000 dressed_up).
  - reflexivity.
  - reflexivity.
  - reflexivity.
  - reflexivity.
  - reflexivity.
  - reflexivity.
  - reflexivity.
  - reflexivity.
  - reflexivity.
  - reflexivity.
  - reflexivity.
Defined.

(** /settle on the authorization of 1000: the first time, again, and at a
    facilitator whose relayer key is no key. *)
Lemma settle_answers_by_send_witness :
  post_settle runtime Examples.near_kit facilitator_env
    (settle_request "Pays1000") []
  = (Ok (c_json []
           (JObj [("ok", JBool true); ("txHash", JStr "tx0");
                  ("blockHash", JStr "outcome0");
                  ("status", JObj [("SuccessValue", JStr "")])]) 200),
     [("relayer", pays_1000)])
  /\ post_settle runtime Examples.near_kit facilitator_env
       (settle_request "Pays1000") [("relayer", pays_1000)]
     = (Ok (c_json []
              (JObj [("ok", JBool false);
                     ("error", JStr "DelegateActionInvalidNonce")]) 400),
        [("relayer", pays_1000)])
  /\ post_settle runtime Examples.near_kit unusable_key_env
       (settle_request "Pays1000") []
     = (Ok (c_json []
              (JObj [("ok", JBool false);
                     ("error", JStr "Invalid key format")]) 400),
        []).
Proof.
  split; [| split].
  - destruct (settle_answers_by_send runtime Examples.near_kit facilitator_env
                (settle_request "Pays1000") []
                (JObj [("delegateB64", JStr "Pays1000")]) (JStr "Pays1000")
                pays_1000 eq_refl eq_refl eq_refl eq_refl)
      as (id & key & Hid & Hkey & _ & _ & H).
    injection Hid as <-. injection Hkey as <-. rewrite H. reflexivity.
  - destruct (settle_answers_by_send runtime Examples.near_kit facilitator_env
                (settle_request "Pays1000") [("relayer", pays_1000)]
                (JObj [("delegateB64", JStr "Pays1000")]) (JStr "Pays1000")
                pays_1000 eq_refl eq_refl eq_refl eq_refl)
      as (id & key & Hid & Hkey & _ & _ & H).
    injection Hid as <-. injection Hkey as <-. rewrite H. reflexivity.
  - destruct (settle_answers_by_send runtime Examples.near_kit unusable_key_env
                (settle_request "Pays1000") []
                (JObj [("delegateB64", JStr "Pays1000")]) (JStr "Pays1000")
                pays_1000 eq_refl eq_refl eq_refl eq_refl)
      as (id & key & Hid & Hkey & _ & _ & H).
    injection Hid as <-. injection Hkey as <-. rewrite H. reflexivity.
Defined.

(** The entry of the seller of the scenario passes the schema as the
    requirements of the scenario. *)
Lemma seller_requirements_pass_the_schema_witness :
  PaymentDetails.parse (Seller.first_accepts runtime seller_env resource)
  = Ok (requirements "1000").
Proof.
  destruct (seller_requirements_pass_the_schema runtime seller_env resource
              eq_refl)
    as (token & seller & Htoken & _ & Hseller & _ & H).
  injection Htoken as <-. injection Hseller as <-. exact H.
Defined.

(** A header that is no JSON once decoded, and a facilitator that does not
    answer. *)
Lemma failures_on_the_way_are_payment_errors_witness :
  Seller.get_weather runtime seller_platform seller_env
    (weather_request (Some "e30x")) (world [] 0 1000)
  = (Ok (c_json []
           (JObj [("error", JStr "PAYMENT_ERROR");
                  ("details",
                   JStr "Unexpected token in JSON")])
           402),
     world [] 0 1000)
  /\ Seller.get_weather runtime nobody_listens seller_env
       (weather_request (Some (x_payment_header "Pays1000")))
       (world [] 0 1000)
     = (Ok (c_json []
              (JObj [("error", JStr "PAYMENT_ERROR");
                     ("details", JStr "fetch failed")]) 402),
        world [] 0 1000).
Proof.
  split.
  - apply (proj1 (failures_on_the_way_are_payment_errors runtime
                    seller_platform seller_env
                    (weather_request (Some "e30x")) "e30x" (world [] 0 1000)
                    eq_refl ltac:(discriminate))
             (SyntaxError_JSON "{}1")).
    reflexivity.
  - destruct (proj2 (failures_on_the_way_are_payment_errors runtime
                       nobody_listens seller_env
                       (weather_request (Some (x_payment_header "Pays1000")))
                       (x_payment_header "Pays1000") (world [] 0 1000)
                       eq_refl ltac:(vm_compute; discriminate))
                (payment_json "near-delegate-exact" "tok" "Pays1000")
                ltac:(vm_compute; reflexivity))
      as (Hthrows & _ & _).
    apply (Hthrows (External "fetch failed") (world [] 0 1000)).
    reflexivity.
Defined.

(** The deployed seller on the authorizations of 999 and of 1000, and on
    the one of 1000 once it is on the ledger. *)
Lemma deployed_outcomes_witness :
  deployed (weather_request (Some (x_payment_header "Pays999")))
    ([], (0, 1000))
  = (Ok (c_json []
           (JObj [("error", JStr "PAYMENT_INVALID");
                  ("details", JStr "Amount mismatch")]) 402),
     ([], (0, 1000)))
  /\ deployed (weather_request (Some (x_payment_header "Pays1000")))
       ([("relayer", pays_1000)], (0, 1000))
     = (Ok (c_json []
              (JObj [("error", JStr "PAYMENT_NOT_SETTLED");
                     ("details", JStr "DelegateActionInvalidNonce")]) 402),
        ([("relayer", pays_1000)], (0, 1000)))
  /\ deployed (weather_request (Some (x_payment_header "Pays1000")))
       ([], (0, 1000))
     = (Ok paid_response, ([("relayer", pays_1000)], (0, 1000))).
Proof.
  split; [| split].
  - apply (proj1 (deployed_outcomes runtime Examples.near_kit facilitator_env
                    seller_env next_uuid next_now
                    (weather_request (Some (x_payment_header "Pays999")))
                    (x_payment_header "Pays999")
                    (payment_json "near-delegate-exact" "tok" "Pays999")
                    (payload "Pays999") (requirements "1000")
                    relayer "relayer" [] (0, 1000)
                    eq_refl ltac:(vm_compute; discriminate)
                    ltac:(vm_compute; reflexivity) eq_refl eq_refl
                    eq_refl eq_refl)
             (Error "Amount mismatch")).
    reflexivity.
  - apply (proj1 (proj2 (deployed_outcomes runtime Examples.near_kit
                           facilitator_env seller_env next_uuid next_now
                           (weather_request
                              (Some (x_payment_header "Pays1000")))
                           (x_payment_header "Pays1000")
                           (payment_json "near-delegate-exact" "tok" "Pays1000")
                           (payload "Pays1000") (requirements "1000")
                           relayer "relayer"
                           [("relayer", pays_1000)] (0, 1000)
                           eq_refl ltac:(vm_compute; discriminate)
                           ltac:(vm_compute; reflexivity) eq_refl eq_refl
                           eq_refl eq_refl))
             pays_1000 (External "DelegateActionInvalidNonce")
             [("relayer", pays_1000)]).
    + reflexivity.
    + reflexivity.
  - apply (proj2 (proj2 (deployed_outcomes runtime Examples.near_kit
                             facilitator_env seller_env next_uuid next_now
                             (weather_request
                                (Some (x_payment_header "Pays1000")))
                             (x_payment_header "Pays1000")
                             (payment_json "near-delegate-exact" "tok"
                                "Pays1000")
                             (payload "Pays1000") (requirements "1000")
                             relayer "relayer" [] (0, 1000)
                             eq_refl ltac:(vm_compute; discriminate)
                             ltac:(vm_compute; reflexivity) eq_refl eq_refl
                             eq_refl eq_refl))
               pays_1000
               {| transaction_hash := "tx0";
                  transaction_outcome_id := "outcome0";
                  outcome_status := JObj [("SuccessValue", JStr "")] |}
               [("relayer", pays_1000)]).
    + reflexivity.
    + reflexivity.
Defined.

(** The 200 of the scenario: what stands behind it. *)
Lemma no_resource_without_settlement_witness :
  exists header payment payload required d relayer id result,
    Seller.x_payment (weather_request (Some (x_payment_header "Pays1000")))
    = Some header
    /\ JSON_parse runtime (Buffer_from_base64_toString_utf8 runtime header)
       = Ok payment
    /\ PaymentPayload.parse payment = Ok payload
    /\ PaymentDetails.parse
         (Seller.first_accepts runtime seller_env
            (Seller.url
               (weather_request (Some (x_payment_header "Pays1000")))))
       = Ok required
    /\ verifyPayment runtime Examples.near_kit payload required = Ok d
    /\ getRelayer Examples.near_kit facilitator_env = Ok relayer
    /\ RELAYER_ACCOUNT_ID facilitator_env = Some id
    /\ send Examples.near_kit relayer id d []
       = (Ok result, [("relayer", pays_1000)])
    /\ (0, 1000) = (0, 1000)
    /\ JStr "tx0" = JStr (transaction_hash result).
Proof.
  exact (no_resource_without_settlement runtime Examples.near_kit
           facilitator_env seller_env next_uuid next_now
           (weather_request (Some (x_payment_header "Pays1000")))
           [] (0, 1000)
           paid_response
           ([("relayer", pays_1000)], (0, 1000))
           ltac:(vm_compute; reflexivity) ltac:(vm_compute; reflexivity)).
Defined.

(** The ledger after the 200 of the scenario holds the one delegate that
    was verified. *)
Lemma ledger_changes_by_one_verified_send_witness :
  [("relayer", pays_1000)] = []
  \/ exists payload required d relayer id,
       PaymentDetails.parse
         (Seller.first_accepts runtime seller_env
            (Seller.url
               (weather_request (Some (x_payment_header "Pays1000")))))
       = Ok required
       /\ verifyPayment runtime Examples.near_kit payload required = Ok d
       /\ getRelayer Examples.near_kit facilitator_env = Ok relayer
       /\ RELAYER_ACCOUNT_ID facilitator_env = Some id
       /\ [("relayer", pays_1000)]
          = snd (send Examples.near_kit relayer id d []).
Proof.
  exact (ledger_changes_by_one_verified_send runtime Examples.near_kit
           facilitator_env seller_env next_uuid next_now
           (weather_request (Some (x_payment_header "Pays1000")))
           [] (0, 1000) (Ok paid_response)
           ([("relayer", pays_1000)], (0, 1000))
           ltac:(vm_compute; reflexivity)).
Defined.

(** The payment the buyer builds from the entry and the invoice of the
    scenario is the payload of the scenario. *)
Lemma buyer_payment_passes_the_schema_witness :
  exists p,
    Buyer.payment entry invoice (JStr "Pays1000") = Ok p
    /\ PaymentPayload.parse p = Ok (payload "Pays1000").
Proof.
  exact (buyer_payment_passes_the_schema entry invoice "Pays1000"
           (requirements "1000") "uuid-0" eq_refl eq_refl).
Defined.

(** The buyer of the scenario verifies; a buyer set up for another seller
    does not. *)
Lemma honest_buyer_verifies_witness :
  verifyPayment runtime Examples.near_kit
    (payload "Pays1000") (requirements "1000") = Ok pays_1000
  /\ verifyPayment runtime Examples.near_kit
       (payload "PaysOther") (requirements "1000")
     = Throw (Error "No transfer to seller found").
Proof.
  split.
  - apply (proj1 (honest_buyer_verifies runtime Examples.near_kit buyer_env
                    entry invoice "Pays1000" (requirements "1000") "uuid-0"
                    (JObj [("receiver_id", JStr "seller");
                           ("amount", JStr "1000");
                           ("memo", JStr "x402 payment uuid-0")])
                    (payment_json "near-delegate-exact" "tok" "Pays1000")
                    (payload "Pays1000") pays_1000
                    {| methodName := "ft_transfer";
                       args := transfer_args "seller" "1000";
                       gas := 30000000000000; deposit := 1 |}
                    "tok" "seller" 1000
                    eq_refl eq_refl ltac:(discriminate) eq_refl eq_refl
                    eq_refl eq_refl eq_refl eq_refl eq_refl eq_refl eq_refl
                    eq_refl ltac:(vm_compute; reflexivity))).
    + reflexivity.
    + reflexivity.
  - apply (proj2 (proj2 (honest_buyer_verifies runtime Examples.near_kit
                           misdirected_buyer_env
                           entry invoice "PaysOther" (requirements "1000")
                           "uuid-0"
                           (JObj [("receiver_id", JStr "other");
                                  ("amount", JStr "1000");
                                  ("memo", JStr "x402 payment uuid-0")])
                           (payment_json "near-delegate-exact" "tok"
                              "PaysOther")
                           (payload "PaysOther") pays_other
                           {| methodName := "ft_transfer";
                              args := transfer_args "other" "1000";
                              gas := 30000000000000; deposit := 1 |}
                           "tok" "other" 1000
                           eq_refl eq_refl ltac:(discriminate) eq_refl eq_refl
                           eq_refl eq_refl eq_refl eq_refl eq_refl eq_refl
                           eq_refl eq_refl ltac:(vm_compute; reflexivity)))).
    + reflexivity.
    + discriminate.
Defined.

(** The run of the scenario: the buyer's header at the deployed seller. *)
Lemma honest_run_is_settled_witness :
  deployed
    {| Seller.url := resource;
       Seller.x_payment :=
         Some (Buyer.x_payment runtime
                 (payment_json "near-delegate-exact" "tok" "Pays1000")) |}
    ([], (0, 1000))
  = (Ok paid_response, ([("relayer", pays_1000)], (0, 1000))).
Proof.
  exact (honest_run_is_settled runtime Examples.near_kit facilitator_env
           seller_env buyer_env next_uuid next_now
           resource invoice "Pays1000" (requirements "1000") "uuid-0"
           (JObj [("receiver_id", JStr "seller");
                  ("amount", JStr "1000");
                  ("memo", JStr "x402 payment uuid-0")])
           (payment_json "near-delegate-exact" "tok" "Pays1000")
           pays_1000
           {| methodName := "ft_transfer";
              args := transfer_args "seller" "1000";
              gas := 30000000000000; deposit := 1 |}
           relayer "relayer" 1000 [] (0, 1000)
           eq_refl eq_refl eq_refl ltac:(discriminate) eq_refl eq_refl
           eq_refl eq_refl ltac:(vm_compute; discriminate)
           ltac:(vm_compute; reflexivity) eq_refl eq_refl eq_refl eq_refl
           ltac:(vm_compute; reflexivity) eq_refl eq_refl).
Defined.

(** The header of the scenario presented twice: the second settlement
    reaches the ledger, which refuses the nonce. *)
Lemma a_header_presented_twice_is_sent_twice_witness :
  [("relayer", pays_1000)]
  = snd (send Examples.near_kit relayer "relayer" pays_1000 [])
  /\ [("relayer", pays_1000)]
     = snd (send Examples.near_kit relayer "relayer" pays_1000
              (snd (send Examples.near_kit relayer "relayer" pays_1000 [])))
  /\ (0, 1000) = (0, 1000).
Proof.
  exact (a_header_presented_twice_is_sent_twice runtime Examples.near_kit
           facilitator_env seller_env next_uuid next_now
           (weather_request (Some (x_payment_header "Pays1000")))
           (x_payment_header "Pays1000")
           (payment_json "near-delegate-exact" "tok" "Pays1000")
           (payload "Pays1000") (requirements "1000") pays_1000
           relayer "relayer" [] (0, 1000)
           (Ok paid_response) ([("relayer", pays_1000)], (0, 1000))
           (Ok not_settled_response) ([("relayer", pays_1000)], (0, 1000))
           eq_refl ltac:(vm_compute; discriminate)
           ltac:(vm_compute; reflexivity) eq_refl eq_refl eq_refl
           eq_refl eq_refl
           ltac:(vm_compute; reflexivity) ltac:(vm_compute; reflexivity)).
Defined.

End MoreScenario.
